(** * USB1608G_2AO_V2: threshold monitoring with hysteresis

    A shallow embedding of the threshold logic of the IOC application
    (ErrorHandler.cpp, ThresholdCompare.cpp, ThresholdLogicController.cpp)
    and the properties of its validation, fault classification, hysteresis
    decision and enable/disable paths.

    C++ [double] is IEEE 754 binary64: it is embedded as Rocq's primitive
    [float], whose operations are the processor's.  C++ [int] and
    [epicsInt32] are embedded as [Z]; where the code does arithmetic on them
    (the statistics counters) the 32-bit wrap-around is written out.
    C strings are embedded as [string]; a pointer that a caller may pass as
    NULL is an [option]. *)

From Stdlib Require Import ZArith Bool List String Lia Floats.
Import ListNotations.

Local Open Scope Z_scope.

(** ** Numeric helpers of <math.h> and the C++ integer conversions *)

Module Num.

Definition INT_MAX : Z := 2147483647.
Definition INT_MIN : Z := -2147483648.
Definition LONG_MAX : Z := 9223372036854775807.
Definition LONG_MIN : Z := -9223372036854775808.

(** Conversion of an integer value to [int]: reduction modulo 2^32 into
    [INT_MIN, INT_MAX]. *)
Definition to_int (z : Z) : Z := (z + 2147483648) mod 4294967296 - 2147483648.

(** [x++] on an [int].  Past [INT_MAX] the C++ standard leaves the result
    undefined; the wrap-around of two's-complement targets is written
    here. *)
Definition incr (x : Z) : Z := to_int (x + 1).

(** [isnan], [isinf], [fabs]. *)
Definition isnan (x : float) : bool := PrimFloat.is_nan x.
Definition isinf (x : float) : bool := PrimFloat.is_infinity x.
Definition fabs (x : float) : float := PrimFloat.abs x.

(** The C comparison operators on [double]; each is false when an operand
    is NaN. *)
Definition lt (x y : float) : bool := PrimFloat.ltb x y.
Definition gt (x y : float) : bool := PrimFloat.ltb y x.
Definition le (x y : float) : bool := PrimFloat.leb x y.
Definition ge (x y : float) : bool := PrimFloat.leb y x.

(** [fmin] and [fmax]: a NaN operand yields the other operand. *)
Definition fmin (x y : float) : float :=
  if isnan x then y else if isnan y then x else if lt y x then y else x.
Definition fmax (x y : float) : float :=
  if isnan x then y else if isnan y then x else if lt x y then y else x.

(** Nearest integer to [m * 2^e] for [0 <= m], ties to the even one (the
    default rounding direction). *)
Definition round_half_even (m e : Z) : Z :=
  if 0 <=? e then m * 2 ^ e
  else
    let d := 2 ^ (- e) in
    let q := m / d in
    let r := m mod d in
    match 2 * r ?= d with
    | Lt => q
    | Gt => q + 1
    | Eq => if Z.even q then q else q + 1
    end.

(** [lrint] to a 64-bit [long].  For NaN, an infinity or a value outside
    the range of [long] the C standard leaves the result unspecified; the
    x86-64 conversion instruction gives [LONG_MIN], which is what is
    written here. *)
Definition lrint (x : float) : Z :=
  match Prim2SF x with
  | S754_zero _ => 0
  | S754_finite s m e =>
      let n := round_half_even (Zpos m) e in
      let v := if s then - n else n in
      if (LONG_MIN <=? v) && (v <=? LONG_MAX) then v else LONG_MIN
  | S754_infinity _ | S754_nan => LONG_MIN
  end.

End Num.

(** The [double] literals of the sources. *)
Module Lit.
Local Open Scope float_scope.
Definition d0 : float := 0.0.
Definition d0_1 : float := 0x1.999999999999ap-4.  (* 0.1 *)
Definition d5 : float := 5.0.
Definition d10 : float := 10.0.
Definition dm10 : float := -10.0.
Definition d1000 : float := 1000.0.
End Lit.

(** ** asyn: the part of asynDriver.h the sources rely on *)

Inductive asynStatus : Type :=
| asynSuccess | asynTimeout | asynOverflow | asynError | asynDisconnected
| asynDisabled | asynParamWrongType | asynParamBadIndex.

Definition asynStatus_eqb (a b : asynStatus) : bool :=
  match a, b with
  | asynSuccess, asynSuccess | asynTimeout, asynTimeout
  | asynOverflow, asynOverflow | asynError, asynError
  | asynDisconnected, asynDisconnected | asynDisabled, asynDisabled
  | asynParamWrongType, asynParamWrongType
  | asynParamBadIndex, asynParamBadIndex => true
  | _, _ => false
  end.

(** An [asynUser]; the drivers read only its [reason]. *)
Record asynUser : Type := mkAsynUser { reason : Z }.

(** ** ErrorHandler.h / ErrorHandler.cpp *)

Module ErrorHandler.

Inductive ErrorLevel : Type := INFO | WARNING | ERROR | FATAL.

Inductive AlarmSeverity : Type :=
| NO_ALARM | MINOR_ALARM | MAJOR_ALARM | INVALID_ALARM.

Inductive AlarmStatus : Type :=
| NO_ALARM_STATUS | READ_ALARM | WRITE_ALARM | HIHI_ALARM | HIGH_ALARM
| LOLO_ALARM | LOW_ALARM | STATE_ALARM | COS_ALARM | COMM_ALARM
| TIMEOUT_ALARM | HW_LIMIT_ALARM | CALC_ALARM | SCAN_ALARM | LINK_ALARM
| SOFT_ALARM | BAD_SUB_ALARM | UDF_ALARM | DISABLE_ALARM | SIMM_ALARM
| READ_ACCESS_ALARM | WRITE_ACCESS_ALARM.

Definition ErrorLevel_eqb (a b : ErrorLevel) : bool :=
  match a, b with
  | INFO, INFO | WARNING, WARNING | ERROR, ERROR | FATAL, FATAL => true
  | _, _ => false
  end.

Record ValidationResult : Type := mkValidationResult {
  isValid : bool;
  errorLevel : ErrorLevel;
  errorMessage : string;
  suggestion : string
}.

Record ThresholdConfig : Type := mkThresholdConfig {
  portName : string;        (* char[64] *)
  devicePort : string;      (* char[64] *)
  deviceAddr : Z;
  updateRate : float;
  priority : Z;
  thresholdValue : float;
  hysteresis : float
}.

(** The text that one logging call hands to [internalLog]: a literal, or a
    [snprintf] format together with its arguments. *)
Inductive Message : Type :=
| Text (s : string)
| AlarmSet (status : AlarmStatus) (severity : AlarmSeverity)
| RuntimeError (errorType : string) (errorCode : Z)
| CommunicationError (port : string) (addr : Z) (operation : string)
| ThreadError (threadName errorMessage : string)
| NotFinite (paramName : string)
| OutOfRange (paramName : string) (value minValue maxValue : float)
| IntOutOfRange (paramName : string) (value minValue maxValue : Z)
| StringEmpty (paramName : string)
| StringTooLong (paramName : string) (length maxLength : nat)
| ThresholdBelowHysteresis (value hysteresis : float)
| ControllerCreated (portName devicePort : string) (deviceAddr : Z).

(** One line written by [internalLog] (the time stamp is left out). *)
Record LogLine : Type := mkLogLine {
  lineLevel : ErrorLevel;
  lineSource : string;
  lineMessage : Message
}.

(** The process-wide state of the class: the four static counters and the
    console, most recent line first. *)
Record Globals : Type := mkGlobals {
  infoCount_ : Z;
  warningCount_ : Z;
  errorCount_ : Z;
  fatalCount_ : Z;
  console : list LogLine
}.

(** Code that reads and writes the globals. *)
Definition M (A : Type) : Type := Globals -> A * Globals.

Definition ret {A : Type} (a : A) : M A := fun g => (a, g).

Definition bind {A B : Type} (c : M A) (k : A -> M B) : M B :=
  fun g => let (a, g') := c g in k a g'.

Module Import Notations.
Declare Scope handler_scope.
Delimit Scope handler_scope with handler.
Notation "x <- c ;; k" := (bind c (fun x => k))
  (at level 61, c at next level, right associativity) : handler_scope.
Notation "c ;; k" := (bind c (fun _ => k))
  (at level 61, right associativity) : handler_scope.
End Notations.

Local Open Scope handler_scope.
Local Open Scope string_scope.

Definition count (level : ErrorLevel) (g : Globals) : Globals :=
  match level with
  | INFO => mkGlobals (Num.incr (infoCount_ g)) (warningCount_ g)
                      (errorCount_ g) (fatalCount_ g) (console g)
  | WARNING => mkGlobals (infoCount_ g) (Num.incr (warningCount_ g))
                         (errorCount_ g) (fatalCount_ g) (console g)
  | ERROR => mkGlobals (infoCount_ g) (warningCount_ g)
                       (Num.incr (errorCount_ g)) (fatalCount_ g) (console g)
  | FATAL => mkGlobals (infoCount_ g) (warningCount_ g)
                       (errorCount_ g) (Num.incr (fatalCount_ g)) (console g)
  end.

(** [internalLog]: the line goes to the console.  The copy that goes to
    the asyn trace when a [pasynUser] is given is not modelled, so the
    logging functions take no [pasynUser]. *)
Definition internalLog (level : ErrorLevel) (source : string)
    (message : Message) : M unit :=
  fun g => (tt, mkGlobals (infoCount_ g) (warningCount_ g) (errorCount_ g)
                          (fatalCount_ g)
                          (mkLogLine level source message :: console g)).

(** [logError]: every caller modelled here passes non-NULL [source] and
    [message], so its NULL guard is left out. *)
Definition logError (level : ErrorLevel) (source : string)
    (message : Message) : M unit :=
  fun g => internalLog level source message (count level g).

Definition setAlarmStatus (pasynUser : option asynUser)
    (status : AlarmStatus) (severity : AlarmSeverity) : M asynStatus :=
  match pasynUser with
  | None =>
      logError ERROR "ErrorHandler::setAlarmStatus"
               (Text "NULL asynUser 포인터") ;;
      ret asynError
  | Some _ =>
      let logLevel :=
        match severity with
        | NO_ALARM => INFO
        | MINOR_ALARM => WARNING
        | MAJOR_ALARM => ERROR
        | INVALID_ALARM => FATAL
        end in
      logError logLevel "ErrorHandler::setAlarmStatus"
               (AlarmSet status severity) ;;
      ret asynSuccess
  end.

Definition validateParameter (paramName : string) (value : float)
    (minValue maxValue : float) (source : string) : M bool :=
  if Num.isnan value || Num.isinf value then
    logError ERROR source (NotFinite paramName) ;;
    ret false
  else if Num.lt value minValue || Num.gt value maxValue then
    logError WARNING source (OutOfRange paramName value minValue maxValue) ;;
    ret false
  else ret true.

Definition validateIntParameter (paramName : string) (value : Z)
    (minValue maxValue : Z) (source : string) : M bool :=
  if (value <? minValue)%Z || (value >? maxValue)%Z then
    logError WARNING source
             (IntOutOfRange paramName value minValue maxValue) ;;
    ret false
  else ret true.

(** [value] is a character array of the configuration, never NULL. *)
Definition validateStringParameter (paramName : string) (value : string)
    (maxLength : nat) (allowEmpty : bool) (source : string) : M bool :=
  let length := String.length value in
  if negb allowEmpty && Nat.eqb length 0 then
    logError WARNING source (StringEmpty paramName) ;;
    ret false
  else if Nat.leb maxLength length then
    logError WARNING source
             (StringTooLong paramName length (maxLength - 1)) ;;
    ret false
  else ret true.

Definition validateConfiguration (config : ThresholdConfig)
    : M ValidationResult :=
  let source := "ErrorHandler::validateConfiguration" in
  let result := mkValidationResult true INFO EmptyString EmptyString in
  ok <- validateStringParameter "portName" (portName config) 64 false source ;;
  if negb ok then
    ret (mkValidationResult false ERROR
           "포트 이름이 유효하지 않습니다"
           "1-63자의 영숫자와 언더스코어만 사용하세요")
  else
  ok <- validateStringParameter "devicePort" (devicePort config) 64 false
                                source ;;
  if negb ok then
    ret (mkValidationResult false ERROR
           "장치 포트 이름이 유효하지 않습니다"
           "유효한 asyn 포트 이름을 지정하세요")
  else
  ok <- validateIntParameter "deviceAddr" (deviceAddr config) 0 255 source ;;
  if negb ok then
    ret (mkValidationResult false ERROR
           "장치 주소가 유효 범위를 벗어났습니다"
           "0-255 범위의 값을 사용하세요")
  else
  ok <- validateParameter "updateRate" (updateRate config)
                          Lit.d0_1 Lit.d1000 source ;;
  if negb ok then
    ret (mkValidationResult false ERROR
           "업데이트 주기가 유효 범위를 벗어났습니다"
           "0.1-1000.0 Hz 범위의 값을 사용하세요")
  else
  ok <- validateIntParameter "priority" (priority config) 0 99 source ;;
  let result :=
    if negb ok then
      mkValidationResult false WARNING
        "스레드 우선순위가 권장 범위를 벗어났습니다"
        "0-99 범위의 값을 사용하세요 (기본값: 50)"
    else result in
  ok <- validateParameter "thresholdValue" (thresholdValue config)
                          Lit.dm10 Lit.d10 source ;;
  if negb ok then
    ret (mkValidationResult false ERROR
           "임계값이 유효 범위를 벗어났습니다"
           "-10.0V ~ +10.0V 범위의 값을 사용하세요")
  else
  ok <- validateParameter "hysteresis" (hysteresis config)
                          Lit.d0 Lit.d5 source ;;
  if negb ok then
    ret (mkValidationResult false ERROR
           "히스테리시스가 유효 범위를 벗어났습니다"
           "0.0V ~ 5.0V 범위의 값을 사용하세요")
  else
  let result :=
    if Num.gt (hysteresis config) (Num.fabs (thresholdValue config)) then
      mkValidationResult true WARNING
        "히스테리시스가 임계값보다 큽니다"
        "히스테리시스를 임계값 절댓값보다 작게 설정하세요"
    else result in
  let result :=
    if isValid result && ErrorLevel_eqb (errorLevel result) INFO then
      mkValidationResult (isValid result) (errorLevel result)
        "구성이 유효합니다" EmptyString
    else result in
  ret result.

Definition handleRuntimeError (source errorType : option string)
    (errorCode : Z) : M bool :=
  match source, errorType with
  | Some source, Some errorType =>
      let errorMessage := RuntimeError errorType errorCode in
      if String.eqb errorType "MEMORY_ALLOCATION" then
        logError FATAL source
                 (Text "메모리 할당 실패 - 시스템 재시작 필요") ;;
        ret false
      else if String.eqb errorType "THREAD_CREATION" then
        logError ERROR source (Text "스레드 생성 실패 - 재시도 가능") ;;
        ret true
      else if String.eqb errorType "PARAMETER_VALIDATION" then
        logError WARNING source
                 (Text "매개변수 유효성 검사 실패 - 기본값 사용") ;;
        ret true
      else if String.eqb errorType "DEVICE_COMMUNICATION" then
        logError ERROR source (Text "장치 통신 오류 - 연결 확인 필요") ;;
        ret true
      else if String.eqb errorType "TIMEOUT" then
        logError WARNING source (Text "타임아웃 발생 - 재시도 권장") ;;
        ret true
      else
        logError ERROR source errorMessage ;;
        ret true
  | _, _ =>
      logError ERROR "ErrorHandler::handleRuntimeError"
               (Text "NULL 포인터가 전달됨") ;;
      ret false
  end.

Definition handleCommunicationError (source devicePort : option string)
    (deviceAddr : Z) (operation : option string)
    (pasynUser : option asynUser) : M bool :=
  match source, devicePort, operation with
  | Some source, Some devicePort, Some operation =>
      logError ERROR source
               (CommunicationError devicePort deviceAddr operation) ;;
      match pasynUser with
      | Some _ => setAlarmStatus pasynUser COMM_ALARM MAJOR_ALARM ;; ret tt
      | None => ret tt
      end ;;
      ret true
  | _, _, _ =>
      logError ERROR "ErrorHandler::handleCommunicationError"
               (Text "NULL 포인터가 전달됨") ;;
      ret false
  end.

(** [strstr (haystack, needle) != NULL]. *)
Definition strstr (haystack needle : string) : bool :=
  match String.index 0 needle haystack with
  | Some _ => true
  | None => false
  end.

Definition handleThreadError (source threadName errorMessage : option string)
    : M bool :=
  match source, threadName, errorMessage with
  | Some source, Some threadName, Some errorMessage =>
      logError ERROR source (ThreadError threadName errorMessage) ;;
      if strstr errorMessage "FATAL" || strstr errorMessage "SEGFAULT" then
        logError FATAL source (Text "치명적 스레드 오류 - 재시작 불가") ;;
        ret false
      else ret true
  | _, _, _ =>
      logError ERROR "ErrorHandler::handleThreadError"
               (Text "NULL 포인터가 전달됨") ;;
      ret false
  end.

Definition getErrorStatistics : M (Z * Z * Z * Z) :=
  fun g => ((infoCount_ g, warningCount_ g, errorCount_ g, fatalCount_ g), g).

Definition resetErrorStatistics : M unit :=
  fun g =>
    logError INFO "ErrorHandler::resetErrorStatistics"
             (Text "오류 통계가 초기화되었습니다")
             (mkGlobals 0 0 0 0 (console g)).

End ErrorHandler.

(** ** ThresholdCompare.cpp *)

Module ThresholdCompare.

Local Open Scope float_scope.

(** The fields of an [aSubRecord] the routine touches: the input buffers
    A to D and the output buffer VALA, each possibly NULL. *)
Record aSubRecord : Type := mkASubRecord {
  a : option float;
  b : option float;
  c : option float;
  d : option float;
  vala : option Z
}.

Definition set_vala (v : Z) (prec : aSubRecord) : aSubRecord :=
  mkASubRecord (a prec) (b prec) (c prec) (d prec) (Some v).

(** The routine returns its status and leaves the record updated. *)
Definition thresholdCompare (prec : option aSubRecord)
    : Z * option aSubRecord :=
  match prec with
  | None => (0%Z, None)
  | Some prec =>
      let A := match a prec with Some v => v | None => 0.0 end in
      let B := match b prec with Some v => v | None => 0.0 end in
      let C := match c prec with Some v => v | None => 0.0 end in
      let D := match d prec with Some v => v | None => 0.0 end in
      let prev := Num.to_int (Num.lrint D) in
      let out :=
        if Num.ge A (B + C) then 1%Z
        else if Num.le A (B - C) then 0%Z
        else prev in
      (0%Z,
       Some (match vala prec with
             | Some _ => set_vala (Num.to_int out) prec
             | None => prec
             end))
  end.

(** The value the routine leaves in VALA when all five buffers are
    present, as a function of the four inputs. *)
Definition compare (sample threshold hysteresis prevOut : float) : option Z :=
  match thresholdCompare
          (Some (mkASubRecord (Some sample) (Some threshold)
                              (Some hysteresis) (Some prevOut) (Some 0%Z)))
  with
  | (_, Some prec) => vala prec
  | (_, None) => None
  end.

End ThresholdCompare.

(** ** asynPortDriver: the parameter library, as far as the driver uses it *)

Module asynPortDriver.

Inductive asynParamType : Type :=
| asynParamInt32 | asynParamFloat64 | asynParamOctet.

(** Values, alarm status and alarm severity of the parameters, by index. *)
Record ParamList : Type := mkParamList {
  integerParam : Z -> Z;
  doubleParam : Z -> float;
  stringParam : Z -> string;
  paramAlarmStatus : Z -> Z;
  paramAlarmSeverity : Z -> Z
}.

Definition upd {A : Type} (f : Z -> A) (index : Z) (v : A) : Z -> A :=
  fun i => if i =? index then v else f i.

Section WithTypes.

(** The type each index was created with ([createParam]). *)
Variable paramType : Z -> option asynParamType.

Definition setIntegerParam (index : Z) (value : Z) (pl : ParamList)
    : asynStatus * ParamList :=
  match paramType index with
  | Some asynParamInt32 =>
      (asynSuccess,
       mkParamList (upd (integerParam pl) index value) (doubleParam pl)
                   (stringParam pl) (paramAlarmStatus pl)
                   (paramAlarmSeverity pl))
  | Some _ => (asynParamWrongType, pl)
  | None => (asynParamBadIndex, pl)
  end.

Definition setDoubleParam (index : Z) (value : float) (pl : ParamList)
    : asynStatus * ParamList :=
  match paramType index with
  | Some asynParamFloat64 =>
      (asynSuccess,
       mkParamList (integerParam pl) (upd (doubleParam pl) index value)
                   (stringParam pl) (paramAlarmStatus pl)
                   (paramAlarmSeverity pl))
  | Some _ => (asynParamWrongType, pl)
  | None => (asynParamBadIndex, pl)
  end.

Definition setStringParam (index : Z) (value : string) (pl : ParamList)
    : asynStatus * ParamList :=
  match paramType index with
  | Some asynParamOctet =>
      (asynSuccess,
       mkParamList (integerParam pl) (doubleParam pl)
                   (upd (stringParam pl) index value)
                   (paramAlarmStatus pl) (paramAlarmSeverity pl))
  | Some _ => (asynParamWrongType, pl)
  | None => (asynParamBadIndex, pl)
  end.

Definition setParamAlarmStatus (index : Z) (status : Z) (pl : ParamList)
    : asynStatus * ParamList :=
  match paramType index with
  | Some _ =>
      (asynSuccess,
       mkParamList (integerParam pl) (doubleParam pl) (stringParam pl)
                   (upd (paramAlarmStatus pl) index status)
                   (paramAlarmSeverity pl))
  | None => (asynParamBadIndex, pl)
  end.

Definition setParamAlarmSeverity (index : Z) (severity : Z)
    (pl : ParamList) : asynStatus * ParamList :=
  match paramType index with
  | Some _ =>
      (asynSuccess,
       mkParamList (integerParam pl) (doubleParam pl) (stringParam pl)
                   (paramAlarmStatus pl)
                   (upd (paramAlarmSeverity pl) index severity))
  | None => (asynParamBadIndex, pl)
  end.

(** The getters.  Every parameter of the driver modelled here is set by its
    constructor, so the library's undefined state does not arise. *)
Definition getIntegerParam (index : Z) (pl : ParamList) : asynStatus * Z :=
  match paramType index with
  | Some asynParamInt32 => (asynSuccess, integerParam pl index)
  | Some _ => (asynParamWrongType, 0)
  | None => (asynParamBadIndex, 0)
  end.

Definition getDoubleParam (index : Z) (pl : ParamList)
    : asynStatus * float :=
  match paramType index with
  | Some asynParamFloat64 => (asynSuccess, doubleParam pl index)
  | Some _ => (asynParamWrongType, Lit.d0)
  | None => (asynParamBadIndex, Lit.d0)
  end.

End WithTypes.

(** A list with nothing set. *)
Definition emptyParamList : ParamList :=
  mkParamList (fun _ => 0) (fun _ => Lit.d0) (fun _ => EmptyString)
              (fun _ => 0) (fun _ => 0).

End asynPortDriver.

(** ** ThresholdLogicController.h / ThresholdLogicController.cpp *)

Module ThresholdLogicController.

Import asynPortDriver.
Import ErrorHandler.Notations.
Local Open Scope string_scope.
Local Open Scope Z_scope.
Local Open Scope handler_scope.

(** The parameter indices, in the order the constructor creates them. *)
Definition P_ThresholdValue : Z := 0.
Definition P_CurrentValue : Z := 1.
Definition P_OutputState : Z := 2.
Definition P_CompareResult : Z := 3.
Definition P_Enable : Z := 4.
Definition P_Hysteresis : Z := 5.
Definition P_UpdateRate : Z := 6.
Definition P_AlarmStatus : Z := 7.
Definition P_DevicePort : Z := 8.
Definition P_DeviceAddr : Z := 9.

Definition paramType (index : Z) : option asynParamType :=
  if index =? P_ThresholdValue then Some asynParamFloat64
  else if index =? P_CurrentValue then Some asynParamFloat64
  else if index =? P_OutputState then Some asynParamInt32
  else if index =? P_CompareResult then Some asynParamInt32
  else if index =? P_Enable then Some asynParamInt32
  else if index =? P_Hysteresis then Some asynParamFloat64
  else if index =? P_UpdateRate then Some asynParamFloat64
  else if index =? P_AlarmStatus then Some asynParamInt32
  else if index =? P_DevicePort then Some asynParamOctet
  else if index =? P_DeviceAddr then Some asynParamInt32
  else None.

(** The object: the members of the class, with the port name, the
    [pasynUserSelf] and the parameter list of its base class.  The thread
    object is represented by its name. *)
Record Controller : Type := mkController {
  portName : string;
  pasynUserSelf : asynUser;
  params : ParamList;
  monitorThread_ : option string;
  threadRunning_ : bool;
  threadExit_ : bool;
  thresholdValue_ : float;
  currentValue_ : float;
  outputState_ : bool;
  enabled_ : bool;
  hysteresis_ : float;
  updateRate_ : float;
  alarmStatus_ : Z;
  devicePortName_ : string;   (* char[64] *)
  deviceAddr_ : Z;
  lastUpdate_ : Z;
  lastOutputState_ : bool
}.

Section Setters.
Variable o : Controller.

Definition set_params (v : ParamList) : Controller :=
  mkController (portName o) (pasynUserSelf o) v (monitorThread_ o)
    (threadRunning_ o) (threadExit_ o) (thresholdValue_ o)
    (currentValue_ o) (outputState_ o) (enabled_ o) (hysteresis_ o)
    (updateRate_ o) (alarmStatus_ o) (devicePortName_ o) (deviceAddr_ o)
    (lastUpdate_ o) (lastOutputState_ o).

Definition set_monitorThread_ (v : option string) : Controller :=
  mkController (portName o) (pasynUserSelf o) (params o) v
    (threadRunning_ o) (threadExit_ o) (thresholdValue_ o)
    (currentValue_ o) (outputState_ o) (enabled_ o) (hysteresis_ o)
    (updateRate_ o) (alarmStatus_ o) (devicePortName_ o) (deviceAddr_ o)
    (lastUpdate_ o) (lastOutputState_ o).

Definition set_threadRunning_ (v : bool) : Controller :=
  mkController (portName o) (pasynUserSelf o) (params o)
    (monitorThread_ o) v (threadExit_ o) (thresholdValue_ o)
    (currentValue_ o) (outputState_ o) (enabled_ o) (hysteresis_ o)
    (updateRate_ o) (alarmStatus_ o) (devicePortName_ o) (deviceAddr_ o)
    (lastUpdate_ o) (lastOutputState_ o).

Definition set_threadExit_ (v : bool) : Controller :=
  mkController (portName o) (pasynUserSelf o) (params o)
    (monitorThread_ o) (threadRunning_ o) v (thresholdValue_ o)
    (currentValue_ o) (outputState_ o) (enabled_ o) (hysteresis_ o)
    (updateRate_ o) (alarmStatus_ o) (devicePortName_ o) (deviceAddr_ o)
    (lastUpdate_ o) (lastOutputState_ o).

Definition set_thresholdValue_ (v : float) : Controller :=
  mkController (portName o) (pasynUserSelf o) (params o)
    (monitorThread_ o) (threadRunning_ o) (threadExit_ o) v
    (currentValue_ o) (outputState_ o) (enabled_ o) (hysteresis_ o)
    (updateRate_ o) (alarmStatus_ o) (devicePortName_ o) (deviceAddr_ o)
    (lastUpdate_ o) (lastOutputState_ o).

Definition set_currentValue_ (v : float) : Controller :=
  mkController (portName o) (pasynUserSelf o) (params o)
    (monitorThread_ o) (threadRunning_ o) (threadExit_ o)
    (thresholdValue_ o) v (outputState_ o) (enabled_ o) (hysteresis_ o)
    (updateRate_ o) (alarmStatus_ o) (devicePortName_ o) (deviceAddr_ o)
    (lastUpdate_ o) (lastOutputState_ o).

Definition set_outputState_ (v : bool) : Controller :=
  mkController (portName o) (pasynUserSelf o) (params o)
    (monitorThread_ o) (threadRunning_ o) (threadExit_ o)
    (thresholdValue_ o) (currentValue_ o) v (enabled_ o) (hysteresis_ o)
    (updateRate_ o) (alarmStatus_ o) (devicePortName_ o) (deviceAddr_ o)
    (lastUpdate_ o) (lastOutputState_ o).

Definition set_enabled_ (v : bool) : Controller :=
  mkController (portName o) (pasynUserSelf o) (params o)
    (monitorThread_ o) (threadRunning_ o) (threadExit_ o)
    (thresholdValue_ o) (currentValue_ o) (outputState_ o) v
    (hysteresis_ o) (updateRate_ o) (alarmStatus_ o) (devicePortName_ o)
    (deviceAddr_ o) (lastUpdate_ o) (lastOutputState_ o).

Definition set_hysteresis_ (v : float) : Controller :=
  mkController (portName o) (pasynUserSelf o) (params o)
    (monitorThread_ o) (threadRunning_ o) (threadExit_ o)
    (thresholdValue_ o) (currentValue_ o) (outputState_ o) (enabled_ o)
    v (updateRate_ o) (alarmStatus_ o) (devicePortName_ o)
    (deviceAddr_ o) (lastUpdate_ o) (lastOutputState_ o).

Definition set_updateRate_ (v : float) : Controller :=
  mkController (portName o) (pasynUserSelf o) (params o)
    (monitorThread_ o) (threadRunning_ o) (threadExit_ o)
    (thresholdValue_ o) (currentValue_ o) (outputState_ o) (enabled_ o)
    (hysteresis_ o) v (alarmStatus_ o) (devicePortName_ o)
    (deviceAddr_ o) (lastUpdate_ o) (lastOutputState_ o).

Definition set_alarmStatus_ (v : Z) : Controller :=
  mkController (portName o) (pasynUserSelf o) (params o)
    (monitorThread_ o) (threadRunning_ o) (threadExit_ o)
    (thresholdValue_ o) (currentValue_ o) (outputState_ o) (enabled_ o)
    (hysteresis_ o) (updateRate_ o) v (devicePortName_ o)
    (deviceAddr_ o) (lastUpdate_ o) (lastOutputState_ o).

Definition set_deviceAddr_ (v : Z) : Controller :=
  mkController (portName o) (pasynUserSelf o) (params o)
    (monitorThread_ o) (threadRunning_ o) (threadExit_ o)
    (thresholdValue_ o) (currentValue_ o) (outputState_ o) (enabled_ o)
    (hysteresis_ o) (updateRate_ o) (alarmStatus_ o) (devicePortName_ o)
    v (lastUpdate_ o) (lastOutputState_ o).

Definition set_lastUpdate_ (v : Z) : Controller :=
  mkController (portName o) (pasynUserSelf o) (params o)
    (monitorThread_ o) (threadRunning_ o) (threadExit_ o)
    (thresholdValue_ o) (currentValue_ o) (outputState_ o) (enabled_ o)
    (hysteresis_ o) (updateRate_ o) (alarmStatus_ o) (devicePortName_ o)
    (deviceAddr_ o) v (lastOutputState_ o).

Definition set_lastOutputState_ (v : bool) : Controller :=
  mkController (portName o) (pasynUserSelf o) (params o)
    (monitorThread_ o) (threadRunning_ o) (threadExit_ o)
    (thresholdValue_ o) (currentValue_ o) (outputState_ o) (enabled_ o)
    (hysteresis_ o) (updateRate_ o) (alarmStatus_ o) (devicePortName_ o)
    (deviceAddr_ o) (lastUpdate_ o) v.

(** The [set...Param] calls of the driver, whose status the code
    drops unless stated otherwise. *)
Definition setIntegerParam (index value : Z) : asynStatus * Controller :=
  let (status, pl) :=
    asynPortDriver.setIntegerParam paramType index value (params o) in
  (status, set_params pl).

Definition setDoubleParam (index : Z) (value : float)
    : asynStatus * Controller :=
  let (status, pl) :=
    asynPortDriver.setDoubleParam paramType index value (params o) in
  (status, set_params pl).

Definition setStringParam (index : Z) (value : string)
    : asynStatus * Controller :=
  let (status, pl) :=
    asynPortDriver.setStringParam paramType index value (params o) in
  (status, set_params pl).

Definition setParamAlarmStatus (index status : Z) : Controller :=
  set_params
    (snd (asynPortDriver.setParamAlarmStatus paramType index status
            (params o))).

Definition setParamAlarmSeverity (index severity : Z) : Controller :=
  set_params
    (snd (asynPortDriver.setParamAlarmSeverity paramType index severity
            (params o))).

End Setters.

(** What the world outside the object answers during one call: the
    status of the two [connect] calls, the value a read assigns to
    [currentValue_], and the clock. *)
Record DeviceIO : Type := mkDeviceIO {
  readConnect : asynStatus;
  readValue : float;
  writeConnect : asynStatus;
  now : Z
}.

(** The outcome of creating and starting the [epicsThread]. *)
Inductive Spawn : Type :=
| Started
| Threw (what : string).

Definition writeFloat64 (pasynUser : asynUser) (value : float)
    (o : Controller) : ErrorHandler.M (asynStatus * Controller) :=
  let function := reason pasynUser in
  let functionName := "writeFloat64" in
  if function =? P_ThresholdValue then
    ok <- ErrorHandler.validateParameter "thresholdValue" value
            Lit.dm10 Lit.d10 functionName ;;
    if negb ok then
      ErrorHandler.logError ErrorHandler.ERROR functionName
        (ErrorHandler.Text
           "임계값이 유효 범위(-10.0V ~ +10.0V)를 벗어났습니다") ;;
      ErrorHandler.ret (asynError, o)
    else
      (if Num.lt (Num.fabs value) (hysteresis_ o) then
         ErrorHandler.logError ErrorHandler.WARNING functionName
           (ErrorHandler.ThresholdBelowHysteresis value (hysteresis_ o))
       else ErrorHandler.ret tt) ;;
      let o := set_thresholdValue_ o value in
      ErrorHandler.ret (setDoubleParam o function value)
  else if function =? P_Hysteresis then
    ok <- ErrorHandler.validateParameter "hysteresis" value
            Lit.d0 Lit.d5 functionName ;;
    if negb ok then
      ErrorHandler.logError ErrorHandler.ERROR functionName
        (ErrorHandler.Text
           "히스테리시스가 유효 범위(0.0V ~ 5.0V)를 벗어났습니다") ;;
      ErrorHandler.ret (asynError, o)
    else
      (* value > fabs(thresholdValue_): a trace message only *)
      let o := set_hysteresis_ o value in
      ErrorHandler.ret (setDoubleParam o function value)
  else if function =? P_UpdateRate then
    ok <- ErrorHandler.validateParameter "updateRate" value
            Lit.d0_1 Lit.d1000 functionName ;;
    if negb ok then
      ErrorHandler.logError ErrorHandler.ERROR functionName
        (ErrorHandler.Text
           "업데이트 주기가 유효 범위(0.1Hz ~ 1000Hz)를 벗어났습니다") ;;
      ErrorHandler.ret (asynError, o)
    else
      let o := set_updateRate_ o value in
      ErrorHandler.ret (setDoubleParam o function value)
  else if function =? P_CurrentValue then
    ErrorHandler.ret (asynError, o)
  else
    (* asynPortDriver::writeFloat64 *)
    ErrorHandler.ret (setDoubleParam o function value).

(** Past a successful [connect] the source assigns to [currentValue_] a
    simulated reading (a sine of the clock plus noise, where the device
    protocol is to come); that reading is [readValue io]. *)
Definition readCurrentValueFromDevice (io : DeviceIO) (o : Controller)
    : asynStatus * Controller :=
  let status := readConnect io in
  if negb (asynStatus_eqb status asynSuccess) then (status, o)
  else
    let o := set_currentValue_ o (readValue io) in
    let o :=
      if Num.lt (currentValue_ o) Lit.dm10
         || Num.gt (currentValue_ o) Lit.d10
      then set_currentValue_ o
             (Num.fmax Lit.dm10 (Num.fmin Lit.d10 (currentValue_ o)))
      else o in
    (status, o).

(** Past a successful [connect] the write is simulated and succeeds. *)
Definition writeOutputStateToDevice (io : DeviceIO) (state : bool)
    : asynStatus :=
  let status := writeConnect io in
  if negb (asynStatus_eqb status asynSuccess) then status else status.

Definition updateAlarmStatus (o : Controller) : Controller :=
  let severityAndStatus :=
    match alarmStatus_ o with
    | 0 => (0, 0)
    | 1 => (1, 3)
    | 2 => (2, 4)
    | 3 => (3, 17)
    | _ => (2, 17)
    end in
  let alarmSeverity := fst severityAndStatus in
  let alarmStatus := snd severityAndStatus in
  let o := setParamAlarmStatus o P_CurrentValue alarmStatus in
  let o := setParamAlarmSeverity o P_CurrentValue alarmSeverity in
  let o := setParamAlarmStatus o P_OutputState alarmStatus in
  let o := setParamAlarmSeverity o P_OutputState alarmSeverity in
  let o := snd (setIntegerParam o P_AlarmStatus (alarmStatus_ o)) in
  let o := setParamAlarmStatus o P_AlarmStatus alarmStatus in
  setParamAlarmSeverity o P_AlarmStatus alarmSeverity.

(** [validateParameters] reports through the asyn trace only; it may
    reset [alarmStatus_]. *)
Definition validateParameters (o : Controller) : bool * Controller :=
  let isValid := true in
  let isValid :=
    if Num.lt (thresholdValue_ o) Lit.dm10
       || Num.gt (thresholdValue_ o) Lit.d10 then false else isValid in
  let isValid :=
    if Num.lt (hysteresis_ o) Lit.d0 || Num.gt (hysteresis_ o) Lit.d5
    then false else isValid in
  (* hysteresis_ > fabs(thresholdValue_): a warning, isValid is kept *)
  let isValid :=
    if Num.lt (updateRate_ o) Lit.d0_1 || Num.gt (updateRate_ o) Lit.d1000
    then false else isValid in
  let isValid :=
    if Nat.eqb (String.length (devicePortName_ o)) 0 then false
    else if Nat.leb 64 (String.length (devicePortName_ o)) then false
    else isValid in
  let isValid :=
    if (deviceAddr_ o <? 0) || (deviceAddr_ o >? 255) then false
    else isValid in
  (* currentValue_ out of range: a warning, isValid is kept *)
  let o :=
    if (alarmStatus_ o <? 0) || (alarmStatus_ o >? 3) then
      let o := set_alarmStatus_ o 0 in
      snd (setIntegerParam o P_AlarmStatus (alarmStatus_ o))
    else o in
  (* enabled_ && !threadRunning_: a warning, isValid is kept *)
  let isValid :=
    if enabled_ o
       && match monitorThread_ o with None => true | Some _ => false end
    then false else isValid in
  (isValid, o).

Definition startMonitoring (spawn : Spawn) (o : Controller)
    : ErrorHandler.M Controller :=
  let functionName := "startMonitoring" in
  if threadRunning_ o then ErrorHandler.ret o
  else
    let o := set_threadExit_ o false in
    let o :=
      if Num.lt (updateRate_ o) Lit.d0_1 || Num.gt (updateRate_ o) Lit.d1000
      then
        let o := set_updateRate_ o Lit.d10 in
        snd (setDoubleParam o P_UpdateRate (updateRate_ o))
      else o in
    let threadName :=
      String.substring 0 63 ("ThresholdMonitor_" ++ portName o) in
    match spawn with
    | Started =>
        let o := set_monitorThread_ o (Some threadName) in
        ErrorHandler.ret (set_threadRunning_ o true)
    | Threw what =>
        ErrorHandler.handleThreadError (Some functionName) (Some threadName)
                                       (Some what) ;;
        let o := set_monitorThread_ o None in
        ErrorHandler.ret (set_threadRunning_ o false)
    end.

(** The wait for the thread to leave its loop (at most 5 s) changes no
    member; the members are reset whether or not the thread was seen to
    leave. *)
Definition stopMonitoring (o : Controller) : Controller :=
  if negb (threadRunning_ o) then o
  else
    let o := set_threadExit_ o true in
    let o :=
      match monitorThread_ o with
      | Some _ => set_monitorThread_ o None
      | None => o
      end in
    let o := set_threadRunning_ o false in
    set_threadExit_ o false.

Definition writeInt32 (pasynUser : asynUser) (value : Z) (spawn : Spawn)
    (o : Controller) : ErrorHandler.M (asynStatus * Controller) :=
  let function := reason pasynUser in
  if function =? P_Enable then
    let value :=
      if negb (value =? 0) && negb (value =? 1)
      then (if negb (value =? 0) then 1 else 0)
      else value in
    let newEnabled := negb (value =? 0) in
    if negb (Bool.eqb newEnabled (enabled_ o)) then
      let change (o : Controller) :=
        let o := set_enabled_ o newEnabled in
        let (status, o) := setIntegerParam o function value in
        o <- (if enabled_ o then startMonitoring spawn o
              else ErrorHandler.ret (stopMonitoring o)) ;;
        ErrorHandler.ret (status, o) in
      if newEnabled then
        let (ok, o) := validateParameters o in
        if negb ok then ErrorHandler.ret (asynError, o)
        else if Nat.eqb (String.length (devicePortName_ o)) 0 then
          ErrorHandler.ret (asynError, o)
        else change o
      else change o
    else ErrorHandler.ret (setIntegerParam o function value)
  else if function =? P_OutputState then ErrorHandler.ret (asynError, o)
  else if function =? P_AlarmStatus then ErrorHandler.ret (asynError, o)
  else if function =? P_DeviceAddr then
    if (value <? 0) || (value >? 255) then ErrorHandler.ret (asynError, o)
    else if enabled_ o then ErrorHandler.ret (asynError, o)
    else
      let o := set_deviceAddr_ o value in
      ErrorHandler.ret (setIntegerParam o function value)
  else
    (* asynPortDriver::writeInt32 *)
    ErrorHandler.ret (setIntegerParam o function value).

(** Step 2 of [processThresholdLogic]: the local [newOutputState]. *)
Definition newOutputState (o : Controller) : bool :=
  if negb (outputState_ o) then
    if Num.gt (currentValue_ o) (thresholdValue_ o) then true
    else outputState_ o
  else
    let lowerThreshold := PrimFloat.sub (thresholdValue_ o) (hysteresis_ o) in
    if Num.lt (currentValue_ o) lowerThreshold then false
    else outputState_ o.

Definition processThresholdLogic (io : DeviceIO) (o : Controller)
    : ErrorHandler.M Controller :=
  let functionName := "processThresholdLogic" in
  if negb (enabled_ o) then ErrorHandler.ret o
  else
    let (status, o) := readCurrentValueFromDevice io o in
    if negb (asynStatus_eqb status asynSuccess) then
      ErrorHandler.handleCommunicationError (Some functionName)
        (Some (devicePortName_ o)) (deviceAddr_ o) (Some "현재값 읽기")
        (Some (pasynUserSelf o)) ;;
      let o := set_alarmStatus_ o 2 in
      ErrorHandler.setAlarmStatus (Some (pasynUserSelf o))
        ErrorHandler.COMM_ALARM ErrorHandler.MAJOR_ALARM ;;
      ErrorHandler.ret (updateAlarmStatus o)
    else
      let newOutputState := newOutputState o in
      o <- (if negb (Bool.eqb newOutputState (outputState_ o)) then
              let o := set_lastOutputState_ o (outputState_ o) in
              let o := set_outputState_ o newOutputState in
              let status := writeOutputStateToDevice io (outputState_ o) in
              o <- (if negb (asynStatus_eqb status asynSuccess) then
                      ErrorHandler.handleCommunicationError
                        (Some functionName) (Some (devicePortName_ o))
                        (deviceAddr_ o) (Some "출력상태 설정")
                        (Some (pasynUserSelf o)) ;;
                      let o := set_alarmStatus_ o 2 in
                      ErrorHandler.setAlarmStatus (Some (pasynUserSelf o))
                        ErrorHandler.WRITE_ALARM ErrorHandler.MAJOR_ALARM ;;
                      ErrorHandler.ret o
                    else ErrorHandler.ret (set_alarmStatus_ o 0)) ;;
              ErrorHandler.ret
                (snd (setIntegerParam o P_OutputState
                        (if outputState_ o then 1 else 0)))
            else if alarmStatus_ o =? 0 then ErrorHandler.ret o
            else ErrorHandler.ret (set_alarmStatus_ o 0)) ;;
      let o := snd (setDoubleParam o P_CurrentValue (currentValue_ o)) in
      let o := snd (setIntegerParam o P_AlarmStatus (alarmStatus_ o)) in
      let o := snd (setIntegerParam o P_CompareResult
                      (if outputState_ o then 1 else 0)) in
      let o := set_lastUpdate_ o (now io) in
      ErrorHandler.ret (updateAlarmStatus o).

(** One pass through the body of the loop of [run] (the pacing of the
    loop is left out). *)
Definition runIteration (io : DeviceIO) (o : Controller)
    : ErrorHandler.M Controller :=
  if enabled_ o then processThresholdLogic io o
  else
    let (status, o) := readCurrentValueFromDevice io o in
    if asynStatus_eqb status asynSuccess
    then ErrorHandler.ret (snd (setDoubleParam o P_CurrentValue
                                  (currentValue_ o)))
    else ErrorHandler.ret o.

(** [run], for the passes the thread makes before it sees [threadExit_]
    set: one [DeviceIO] per pass. *)
Fixpoint run (ios : list DeviceIO) (o : Controller)
    : ErrorHandler.M Controller :=
  match ios with
  | [] => ErrorHandler.ret (set_threadRunning_ o false)
  | io :: ios => o <- runIteration io o ;; run ios o
  end.

Definition validateConfigurationWithErrorHandler (o : Controller)
    : ErrorHandler.M bool :=
  let functionName := "validateConfigurationWithErrorHandler" in
  let config :=
    ErrorHandler.mkThresholdConfig
      (String.substring 0 63 (portName o))
      (String.substring 0 63 (devicePortName_ o))
      (deviceAddr_ o) (updateRate_ o) 50 (thresholdValue_ o)
      (hysteresis_ o) in
  result <- ErrorHandler.validateConfiguration config ;;
  let hint :=
    if negb (Nat.eqb (String.length (ErrorHandler.suggestion result)) 0)
    then ErrorHandler.logError ErrorHandler.INFO functionName
           (ErrorHandler.Text (ErrorHandler.suggestion result))
    else ErrorHandler.ret tt in
  if negb (ErrorHandler.isValid result) then
    ErrorHandler.logError (ErrorHandler.errorLevel result) functionName
      (ErrorHandler.Text (ErrorHandler.errorMessage result)) ;;
    hint ;;
    ErrorHandler.ret false
  else
    (if ErrorHandler.ErrorLevel_eqb (ErrorHandler.errorLevel result)
          ErrorHandler.WARNING
     then
       ErrorHandler.logError ErrorHandler.WARNING functionName
         (ErrorHandler.Text (ErrorHandler.errorMessage result)) ;;
       hint
     else ErrorHandler.ret tt) ;;
    ErrorHandler.ret true.

(** The constructor; [now] is the clock reading it stores. *)
Definition ThresholdLogicController (portName devicePort : string)
    (deviceAddr : Z) (now : Z) : ErrorHandler.M Controller :=
  let functionName := "ThresholdLogicController" in
  let o :=
    mkController portName (mkAsynUser 0) emptyParamList
      None false false           (* monitorThread_ threadRunning_ threadExit_ *)
      Lit.d0 Lit.d0              (* thresholdValue_ currentValue_ *)
      false false                (* outputState_ enabled_ *)
      Lit.d0_1 Lit.d10 0         (* hysteresis_ updateRate_ alarmStatus_ *)
      (String.substring 0 63 devicePort) deviceAddr
      0 false in                 (* lastUpdate_ lastOutputState_ *)
  let o := snd (setDoubleParam o P_ThresholdValue (thresholdValue_ o)) in
  let o := snd (setDoubleParam o P_CurrentValue (currentValue_ o)) in
  let o := snd (setIntegerParam o P_OutputState
                  (if outputState_ o then 1 else 0)) in
  let o := snd (setIntegerParam o P_CompareResult
                  (if outputState_ o then 1 else 0)) in
  let o := snd (setIntegerParam o P_Enable (if enabled_ o then 1 else 0)) in
  let o := snd (setDoubleParam o P_Hysteresis (hysteresis_ o)) in
  let o := snd (setDoubleParam o P_UpdateRate (updateRate_ o)) in
  let o := snd (setIntegerParam o P_AlarmStatus (alarmStatus_ o)) in
  let o := snd (setStringParam o P_DevicePort (devicePortName_ o)) in
  let o := snd (setIntegerParam o P_DeviceAddr (deviceAddr_ o)) in
  let o := set_lastUpdate_ o now in
  ok <- validateConfigurationWithErrorHandler o ;;
  (if negb ok then
     ErrorHandler.logError ErrorHandler.WARNING functionName
       (ErrorHandler.Text "구성 유효성 검사에서 경고가 발생했습니다")
   else ErrorHandler.ret tt) ;;
  ErrorHandler.logError ErrorHandler.INFO functionName
    (ErrorHandler.ControllerCreated portName devicePort deviceAddr) ;;
  ErrorHandler.ret o.

(** [readFloat64]: [value] is what the caller's buffer holds, [None] for a
    NULL pointer; the result is the status and what the buffer holds
    afterwards.  The object is not changed. *)
Definition readFloat64 (pasynUser : asynUser) (value : option float)
    (o : Controller) : asynStatus * option float :=
  let function := reason pasynUser in
  match value with
  | None => (asynError, None)
  | Some old =>
      if function =? P_ThresholdValue then
        (asynSuccess, Some (thresholdValue_ o))
      else if function =? P_CurrentValue then
        (asynSuccess, Some (currentValue_ o))
      else if function =? P_Hysteresis then
        (asynSuccess, Some (hysteresis_ o))
      else if function =? P_UpdateRate then
        (asynSuccess, Some (updateRate_ o))
      else
        (* asynPortDriver::readFloat64 *)
        let (status, v) :=
          asynPortDriver.getDoubleParam paramType function (params o) in
        if asynStatus_eqb status asynSuccess then (status, Some v)
        else (status, Some old)
  end.

Definition readInt32 (pasynUser : asynUser) (value : option Z)
    (o : Controller) : asynStatus * option Z :=
  let function := reason pasynUser in
  match value with
  | None => (asynError, None)
  | Some old =>
      if function =? P_Enable then
        (asynSuccess, Some (if enabled_ o then 1 else 0))
      else if function =? P_OutputState then
        (asynSuccess, Some (if outputState_ o then 1 else 0))
      else if function =? P_CompareResult then
        (asynSuccess, Some (if outputState_ o then 1 else 0))
      else if function =? P_AlarmStatus then
        (asynSuccess, Some (alarmStatus_ o))
      else if function =? P_DeviceAddr then
        (asynSuccess, Some (deviceAddr_ o))
      else
        (* asynPortDriver::readInt32 *)
        let (status, v) :=
          asynPortDriver.getIntegerParam paramType function (params o) in
        if asynStatus_eqb status asynSuccess then (status, Some v)
        else (status, Some old)
  end.

(** [ThresholdLogicConfig].  [findAsynPortDriver] tells whether a port of
    that name exists already; [allocated] is false when [new] throws
    [std::bad_alloc].  The result is the return code and the controller
    created, if any. *)
Definition ThresholdLogicConfig (portName devicePort : option string)
    (deviceAddr : Z) (findAsynPortDriver : string -> bool)
    (allocated : bool) (now : Z)
    : ErrorHandler.M (Z * option Controller) :=
  match portName with
  | None => ErrorHandler.ret (-1, None)
  | Some portName =>
      if Nat.eqb (String.length portName) 0 then ErrorHandler.ret (-1, None)
      else
        match devicePort with
        | None => ErrorHandler.ret (-1, None)
        | Some devicePort =>
            if Nat.eqb (String.length devicePort) 0
            then ErrorHandler.ret (-1, None)
            else if (deviceAddr <? 0) || (deviceAddr >? 255)
            then ErrorHandler.ret (-1, None)
            else if findAsynPortDriver portName
            then ErrorHandler.ret (-1, None)
            else if negb allocated then ErrorHandler.ret (-1, None)
            else
              pController <- ThresholdLogicController portName devicePort
                               deviceAddr now ;;
              ErrorHandler.ret (0, Some pController)
        end
  end.

End ThresholdLogicController.

(** ** The vocabulary of the specification *)

Module Spec.

Import ErrorHandler.
Local Open Scope string_scope.
Local Open Scope float_scope.

(** A numeric value outside a range: NaN, an infinity, or a number below
    [minValue] or above [maxValue]. *)
Definition outside (value minValue maxValue : float) : bool :=
  Num.isnan value || Num.isinf value
  || Num.lt value minValue || Num.gt value maxValue.

(** An identifier character: alphanumeric or underscore. *)
Definition isIdentifierChar (ch : Ascii.ascii) : bool :=
  let n := Ascii.nat_of_ascii ch in
  (Nat.leb 48 n && Nat.leb n 57)        (* 0-9 *)
  || (Nat.leb 65 n && Nat.leb n 90)     (* A-Z *)
  || (Nat.leb 97 n && Nat.leb n 122)    (* a-z *)
  || Nat.eqb n 95.                      (* _ *)

Fixpoint isIdentifier (s : string) : bool :=
  match s with
  | EmptyString => true
  | String ch s => isIdentifierChar ch && isIdentifier s
  end.

(** A name that is empty or longer than 63 characters. *)
Definition refusedLength (s : string) : bool :=
  Nat.eqb (String.length s) 0 || Nat.leb 64 (String.length s).

(** The numeric fields of a configuration, the priority apart, are inside
    their ranges. *)
Definition numbersInRange (config : ThresholdConfig) : bool :=
  negb ((deviceAddr config <? 0)%Z || (deviceAddr config >? 255)%Z)
  && negb (outside (updateRate config) Lit.d0_1 Lit.d1000)
  && negb (outside (thresholdValue config) Lit.dm10 Lit.d10)
  && negb (outside (hysteresis config) Lit.d0 Lit.d5).

(** The stateful decision in the words of the specification: low and
    sample above the threshold gives high, high and sample below threshold
    minus hysteresis gives low, anything else keeps the output. *)
Definition nextState (prevOut : bool) (sample threshold hysteresis : float)
    : bool :=
  if negb prevOut && Num.gt sample threshold then true
  else if prevOut && Num.lt sample (threshold - hysteresis) then false
  else prevOut.

(** A sample clamped to [-10.0, 10.0]. *)
Definition clamped (v : float) : float :=
  if Num.lt v Lit.dm10 || Num.gt v Lit.d10
  then Num.fmax Lit.dm10 (Num.fmin Lit.d10 v)
  else v.

End Spec.

(** ** Sample configurations and states *)

Module Samples.

Import ThresholdLogicController.
Local Open Scope string_scope.
Local Open Scope float_scope.

(** The source name [validateConfiguration] logs under. *)
Definition source : string := "ErrorHandler::validateConfiguration".

(** Every field inside its range: 10 Hz, priority 50, threshold 2.0 V,
    hysteresis 0.5 V. *)
Definition inRange : ErrorHandler.ThresholdConfig :=
  ErrorHandler.mkThresholdConfig "TH1" "DEV" 0 10.0 50 2.0 0.5.

(** A configuration with the two names replaced. *)
Definition withNames (portName devicePort : string)
    (config : ErrorHandler.ThresholdConfig) : ErrorHandler.ThresholdConfig :=
  ErrorHandler.mkThresholdConfig portName devicePort
    (ErrorHandler.deviceAddr config) (ErrorHandler.updateRate config)
    (ErrorHandler.priority config) (ErrorHandler.thresholdValue config)
    (ErrorHandler.hysteresis config).

(** A configuration with the priority replaced. *)
Definition withPriority (priority : Z)
    (config : ErrorHandler.ThresholdConfig) : ErrorHandler.ThresholdConfig :=
  ErrorHandler.mkThresholdConfig (ErrorHandler.portName config)
    (ErrorHandler.devicePort config) (ErrorHandler.deviceAddr config)
    (ErrorHandler.updateRate config) priority
    (ErrorHandler.thresholdValue config) (ErrorHandler.hysteresis config).

(** A configuration with threshold and hysteresis replaced. *)
Definition withThreshold (thresholdValue hysteresis : float)
    (config : ErrorHandler.ThresholdConfig) : ErrorHandler.ThresholdConfig :=
  ErrorHandler.mkThresholdConfig (ErrorHandler.portName config)
    (ErrorHandler.devicePort config) (ErrorHandler.deviceAddr config)
    (ErrorHandler.updateRate config) (ErrorHandler.priority config)
    thresholdValue hysteresis.

(** The globals of a process that has logged nothing yet. *)
Definition g0 : ErrorHandler.Globals := ErrorHandler.mkGlobals 0 0 0 0 [].

(** A controller as the constructor leaves it. *)
Definition fresh : Controller :=
  fst (ThresholdLogicController "TH1" "DEV" 0 0 g0).

(** The same with threshold 2.0 V and hysteresis 0.5 V. *)
Definition configured : Controller :=
  let o :=
    snd (fst (writeFloat64 (mkAsynUser P_ThresholdValue) 2.0 fresh g0)) in
  snd (fst (writeFloat64 (mkAsynUser P_Hysteresis) 0.5 o g0)).

(** The same, enabled, with its monitor thread started. *)
Definition running : Controller :=
  snd (fst (writeInt32 (mkAsynUser P_Enable) 1 Started configured g0)).

(** A controller created without a device port. *)
Definition noDevice : Controller :=
  fst (ThresholdLogicController "TH1" EmptyString 0 0 g0).

(** A pass in which the device answers [v]. *)
Definition answers (v : float) : DeviceIO :=
  mkDeviceIO asynSuccess v asynSuccess 1.

(** A pass in which the device answers [v] and refuses the write. *)
Definition refusesWrite (v : float) : DeviceIO :=
  mkDeviceIO asynSuccess v asynError 1.

End Samples.

(** ** Invariants and summaries used by the further properties *)

Module Invariants.

Import asynPortDriver.
Import ThresholdLogicController.
Local Open Scope string_scope.
Local Open Scope Z_scope.

(** The verdict of [validateConfiguration] as a function of the
    configuration alone: the first field refused, in the order portName,
    devicePort, deviceAddr, updateRate, thresholdValue, hysteresis, decides;
    with none refused, the relationship of hysteresis and threshold, then
    the priority, give a warning. *)
Definition verdict (config : ErrorHandler.ThresholdConfig)
    : ErrorHandler.ValidationResult :=
  if Spec.refusedLength (ErrorHandler.portName config) then
    ErrorHandler.mkValidationResult false ErrorHandler.ERROR
      "포트 이름이 유효하지 않습니다"
      "1-63자의 영숫자와 언더스코어만 사용하세요"
  else if Spec.refusedLength (ErrorHandler.devicePort config) then
    ErrorHandler.mkValidationResult false ErrorHandler.ERROR
      "장치 포트 이름이 유효하지 않습니다"
      "유효한 asyn 포트 이름을 지정하세요"
  else if (ErrorHandler.deviceAddr config <? 0)
          || (ErrorHandler.deviceAddr config >? 255) then
    ErrorHandler.mkValidationResult false ErrorHandler.ERROR
      "장치 주소가 유효 범위를 벗어났습니다"
      "0-255 범위의 값을 사용하세요"
  else if Spec.outside (ErrorHandler.updateRate config) Lit.d0_1 Lit.d1000
  then
    ErrorHandler.mkValidationResult false ErrorHandler.ERROR
      "업데이트 주기가 유효 범위를 벗어났습니다"
      "0.1-1000.0 Hz 범위의 값을 사용하세요"
  else if Spec.outside (ErrorHandler.thresholdValue config) Lit.dm10 Lit.d10
  then
    ErrorHandler.mkValidationResult false ErrorHandler.ERROR
      "임계값이 유효 범위를 벗어났습니다"
      "-10.0V ~ +10.0V 범위의 값을 사용하세요"
  else if Spec.outside (ErrorHandler.hysteresis config) Lit.d0 Lit.d5 then
    ErrorHandler.mkValidationResult false ErrorHandler.ERROR
      "히스테리시스가 유효 범위를 벗어났습니다"
      "0.0V ~ 5.0V 범위의 값을 사용하세요"
  else if Num.gt (ErrorHandler.hysteresis config)
                 (Num.fabs (ErrorHandler.thresholdValue config)) then
    ErrorHandler.mkValidationResult true ErrorHandler.WARNING
      "히스테리시스가 임계값보다 큽니다"
      "히스테리시스를 임계값 절댓값보다 작게 설정하세요"
  else if (ErrorHandler.priority config <? 0)
          || (ErrorHandler.priority config >? 99) then
    ErrorHandler.mkValidationResult false ErrorHandler.WARNING
      "스레드 우선순위가 권장 범위를 벗어났습니다"
      "0-99 범위의 값을 사용하세요 (기본값: 50)"
  else
    ErrorHandler.mkValidationResult true ErrorHandler.INFO
      "구성이 유효합니다" EmptyString.

(** The parameter library holds what the members hold. *)
Definition mirrored (o : Controller) : Prop :=
  doubleParam (params o) P_ThresholdValue = thresholdValue_ o
  /\ doubleParam (params o) P_CurrentValue = currentValue_ o
  /\ integerParam (params o) P_OutputState
     = (if outputState_ o then 1 else 0)
  /\ integerParam (params o) P_Enable = (if enabled_ o then 1 else 0)
  /\ doubleParam (params o) P_Hysteresis = hysteresis_ o
  /\ doubleParam (params o) P_UpdateRate = updateRate_ o
  /\ integerParam (params o) P_AlarmStatus = alarmStatus_ o
  /\ integerParam (params o) P_DeviceAddr = deviceAddr_ o.

(** The settings pass the range tests of [validateParameters]. *)
Definition validated (o : Controller) : Prop :=
  (Num.lt (thresholdValue_ o) Lit.dm10 || Num.gt (thresholdValue_ o) Lit.d10)
  = false
  /\ (Num.lt (hysteresis_ o) Lit.d0 || Num.gt (hysteresis_ o) Lit.d5) = false
  /\ (Num.lt (updateRate_ o) Lit.d0_1 || Num.gt (updateRate_ o) Lit.d1000)
     = false
  /\ devicePortName_ o <> EmptyString
  /\ 0 <= deviceAddr_ o <= 255.

(** The number of lines on the console. *)
Definition lines (g : ErrorHandler.Globals) : nat :=
  List.length (ErrorHandler.console g).

End Invariants.

(** * Properties of the comparisons on [double] *)

Module FloatFacts.

Lemma SFcompare_antisym a b :
  SFcompare b a = option_map CompOpp (SFcompare a b).
Proof.
  destruct a as [sa | sa | | sa ma ea], b as [sb | sb | | sb mb eb];
    try reflexivity;
    try (destruct sa; reflexivity);
    try (destruct sb; reflexivity);
    try (destruct sa, sb; reflexivity).
  cbn [SFcompare option_map].
  rewrite (Z.compare_antisym ea eb).
  change (Pos.compare_cont Eq mb ma) with (Pos.compare mb ma).
  change (Pos.compare_cont Eq ma mb) with (Pos.compare ma mb).
  rewrite (Pos.compare_antisym ma mb).
  destruct sa, sb; try reflexivity;
    destruct (ea ?= eb); try reflexivity;
    destruct (ma ?= mb)%positive; reflexivity.
Qed.

(** [x < y] excludes [y <= x]. *)
Lemma lt_not_ge x y : Num.lt x y = true -> Num.ge x y = false.
Proof.
  unfold Num.lt, Num.ge. rewrite ltb_spec, leb_spec.
  unfold SFltb, SFleb. rewrite (SFcompare_antisym (Prim2SF x) (Prim2SF y)).
  destruct (SFcompare (Prim2SF x) (Prim2SF y)) as [ [ | | ] | ];
    cbn [option_map CompOpp]; congruence.
Qed.

(** A number is less than or equal to itself. *)
Lemma le_refl x : Num.isnan x = false -> Num.le x x = true.
Proof.
  unfold Num.isnan, PrimFloat.is_nan, Num.le.
  rewrite eqb_spec, leb_spec. unfold SFeqb, SFleb.
  destruct (SFcompare (Prim2SF x) (Prim2SF x)) as [ [ | | ] | ];
    cbn [negb]; congruence.
Qed.

(** Only numbers compare. *)
Lemma lt_not_nan x y : Num.lt x y = true -> Num.isnan x = false.
Proof.
  unfold Num.lt, Num.isnan, PrimFloat.is_nan.
  rewrite ltb_spec, eqb_spec. unfold SFltb, SFeqb.
  destruct (Prim2SF x) as [sa | sa | | sa ma ea];
    destruct (Prim2SF y) as [sb | sb | | sb mb eb];
    cbn [SFcompare]; try discriminate; try reflexivity;
    try (destruct sa; reflexivity).
  all: intros _; destruct sa; rewrite Z.compare_refl;
    change (Pos.compare_cont Eq ma ma) with (Pos.compare ma ma);
    rewrite Pos.compare_refl; reflexivity.
Qed.

Lemma to_int_small z :
  Num.INT_MIN <= z <= Num.INT_MAX -> Num.to_int z = z.
Proof.
  unfold Num.INT_MIN, Num.INT_MAX, Num.to_int. intros H.
  rewrite Z.mod_small by lia. lia.
Qed.

Lemma to_int_range z : Num.INT_MIN <= Num.to_int z <= Num.INT_MAX.
Proof.
  unfold Num.INT_MIN, Num.INT_MAX, Num.to_int.
  pose proof (Z.mod_pos_bound (z + 2147483648) 4294967296 eq_refl). lia.
Qed.

Lemma to_int_idem z : Num.to_int (Num.to_int z) = Num.to_int z.
Proof. apply to_int_small, to_int_range. Qed.

Lemma incr_small z :
  Num.INT_MIN <= z < Num.INT_MAX -> Num.incr z = z + 1.
Proof.
  intros H. unfold Num.incr. apply to_int_small.
  unfold Num.INT_MIN, Num.INT_MAX in *. lia.
Qed.

End FloatFacts.

(** * Properties of the stateless comparison *)

Module ThresholdCompareProps.

Import ThresholdCompare.
Local Open Scope float_scope.

(** The routine, case by case. *)
Lemma compare_cases sample threshold hysteresis prevOut :
  compare sample threshold hysteresis prevOut
  = Some (if Num.ge sample (threshold + hysteresis) then 1%Z
          else if Num.le sample (threshold - hysteresis) then 0%Z
          else Num.to_int (Num.lrint prevOut)).
Proof.
  unfold compare, thresholdCompare. cbn [a b c d vala set_vala].
  destruct (Num.ge _ _); [ reflexivity | ].
  destruct (Num.le _ _); [ reflexivity | ].
  rewrite FloatFacts.to_int_idem. reflexivity.
Qed.

(** C2, as stated, fails: with hysteresis 0 the sample
    threshold - hysteresis meets the first test, and the result is 1. *)
Lemma compare_lower_edge_zero_hysteresis :
  compare (2.0 - 0.0) 2.0 0.0 1.0 <> Some 0%Z.
Proof. vm_compute. discriminate. Qed.

(** A NaN threshold meets neither test, and the previous output stays. *)
Example compare_nan_threshold :
  compare (PrimFloat.nan + 0.5) PrimFloat.nan 0.5 0.0 = Some 0%Z.
Proof. vm_compute. reflexivity. Qed.

(** C2, amended: the routine gives 1 for a sample greater than or equal
    to threshold + hysteresis, else 0 for a sample less than or equal to
    threshold - hysteresis, else the previous output (rounded to [int]);
    so at the sample threshold + hysteresis it gives 1 when that sum is a
    number, and at the sample threshold - hysteresis it gives 0 when that
    difference is less than the sum, and 1 when it is not less (as with
    hysteresis 0). *)
Theorem compare_edges threshold hysteresis prevOut :
  (forall sample,
     compare sample threshold hysteresis prevOut
     = Some (if Num.ge sample (threshold + hysteresis) then 1%Z
             else if Num.le sample (threshold - hysteresis) then 0%Z
             else Num.to_int (Num.lrint prevOut)))
  /\ (Num.isnan (threshold + hysteresis) = false ->
      compare (threshold + hysteresis) threshold hysteresis prevOut
      = Some 1%Z)
  /\ (Num.lt (threshold - hysteresis) (threshold + hysteresis) = true ->
      compare (threshold - hysteresis) threshold hysteresis prevOut
      = Some 0%Z)
  /\ (Num.ge (threshold - hysteresis) (threshold + hysteresis) = true ->
      compare (threshold - hysteresis) threshold hysteresis prevOut
      = Some 1%Z).
Proof.
  split; [ intros sample; apply compare_cases | split; [ | split ] ].
  - intros Hn. rewrite compare_cases.
    unfold Num.ge.
    fold (Num.le (threshold + hysteresis) (threshold + hysteresis)).
    rewrite FloatFacts.le_refl by exact Hn. reflexivity.
  - intros Hlt. rewrite compare_cases.
    rewrite (FloatFacts.lt_not_ge _ _ Hlt).
    rewrite FloatFacts.le_refl by exact (FloatFacts.lt_not_nan _ _ Hlt).
    reflexivity.
  - intros Hge. rewrite compare_cases, Hge. reflexivity.
Qed.

Lemma compare_edges_witness :
  Num.isnan (2.0 + 0.5) = false
  /\ Num.lt (2.0 - 0.5) (2.0 + 0.5) = true
  /\ compare (2.0 + 0.5) 2.0 0.5 0.0 = Some 1%Z
  /\ compare (2.0 - 0.5) 2.0 0.5 1.0 = Some 0%Z.
Proof.
  split; [ reflexivity | split; [ reflexivity | split ] ].
  - exact (proj1 (proj2 (compare_edges 2.0 0.5 0.0)) eq_refl).
  - exact (proj1 (proj2 (proj2 (compare_edges 2.0 0.5 1.0))) eq_refl).
Defined.

(** Inside the band the previous output is kept. *)
Example compare_inside_band :
  compare 1.75 2.0 0.5 1.0 = Some 1%Z /\ compare 1.75 2.0 0.5 0.0 = Some 0%Z.
Proof. vm_compute. split; reflexivity. Qed.

(** A NULL record, or a NULL output buffer, is left alone. *)
Lemma thresholdCompare_null :
  thresholdCompare None = (0%Z, None)
  /\ forall A B C D,
       thresholdCompare (Some (mkASubRecord A B C D None))
       = (0%Z, Some (mkASubRecord A B C D None)).
Proof. split; [ reflexivity | intros; reflexivity ]. Qed.

End ThresholdCompareProps.

(** * Properties of the validator and of the fault classifier *)

Module ErrorHandlerProps.

Import ErrorHandler.
Import Spec.
Import Samples.
Local Open Scope string_scope.

Lemma validateParameter_outside paramName value minValue maxValue src g :
  outside value minValue maxValue = true ->
  fst (validateParameter paramName value minValue maxValue src g) = false.
Proof.
  unfold outside, validateParameter. intros H.
  destruct (Num.isnan value || Num.isinf value)%bool; [ reflexivity | ].
  cbn [orb] in H. rewrite H. reflexivity.
Qed.

Lemma validateParameter_inside paramName value minValue maxValue src g :
  outside value minValue maxValue = false ->
  validateParameter paramName value minValue maxValue src g = (true, g).
Proof.
  unfold outside, validateParameter. intros H.
  destruct (Num.isnan value || Num.isinf value)%bool; [ discriminate | ].
  cbn [orb] in H. rewrite H. reflexivity.
Qed.

Lemma validateStringParameter_refused paramName value g :
  refusedLength value = true ->
  fst (validateStringParameter paramName value 64 false source g) = false.
Proof.
  unfold refusedLength, validateStringParameter. intros H.
  cbn [negb andb].
  destruct (Nat.eqb (String.length value) 0); [ reflexivity | ].
  cbn [orb] in H. rewrite H. reflexivity.
Qed.

Lemma validateStringParameter_passed paramName value g :
  refusedLength value = false ->
  validateStringParameter paramName value 64 false source g = (true, g).
Proof.
  unfold refusedLength, validateStringParameter. intros H.
  cbn [negb andb].
  destruct (Nat.eqb (String.length value) 0); [ discriminate | ].
  cbn [orb] in H. rewrite H. reflexivity.
Qed.

(** NaN and the infinities are refused at ERROR, a number outside the
    range at WARNING. *)
Lemma validateParameter_not_finite paramName value minValue maxValue src g :
  (Num.isnan value || Num.isinf value)%bool = true ->
  validateParameter paramName value minValue maxValue src g
  = (false, snd (logError ERROR src (NotFinite paramName) g)).
Proof.
  intros H. unfold validateParameter. rewrite H. reflexivity.
Qed.

Lemma validateParameter_out_of_range paramName value minValue maxValue src g :
  (Num.isnan value || Num.isinf value)%bool = false ->
  (Num.lt value minValue || Num.gt value maxValue)%bool = true ->
  validateParameter paramName value minValue maxValue src g
  = (false,
     snd (logError WARNING src
            (OutOfRange paramName value minValue maxValue) g)).
Proof.
  intros H1 H2. unfold validateParameter. rewrite H1, H2. reflexivity.
Qed.

(** C9: for a configuration with an empty portName the result is invalid
    at ERROR severity; the call leaves one warning about portName behind
    and nothing else, and both the result and the globals are the same
    whatever the other fields hold. *)
Theorem validateConfiguration_empty_portName config g :
  portName config = EmptyString ->
  let r := validateConfiguration config g in
  isValid (fst r) = false
  /\ errorLevel (fst r) = ERROR
  /\ snd r = mkGlobals (infoCount_ g) (Num.incr (warningCount_ g))
               (errorCount_ g) (fatalCount_ g)
               (mkLogLine WARNING source (StringEmpty "portName")
                :: console g)
  /\ forall config',
       portName config' = EmptyString ->
       validateConfiguration config' g = r.
Proof.
  intros H r.
  assert (E : forall c, portName c = EmptyString ->
              validateConfiguration c g
              = (mkValidationResult false ERROR
                   "포트 이름이 유효하지 않습니다"
                   "1-63자의 영숫자와 언더스코어만 사용하세요",
                 mkGlobals (infoCount_ g) (Num.incr (warningCount_ g))
                   (errorCount_ g) (fatalCount_ g)
                   (mkLogLine WARNING source (StringEmpty "portName")
                    :: console g))).
  { intros c Hc. unfold validateConfiguration. rewrite Hc. reflexivity. }
  unfold r. rewrite (E config H).
  repeat split. intros config' H'. apply E, H'.
Qed.

Lemma validateConfiguration_empty_portName_witness :
  portName (withNames EmptyString "DEV" inRange) = EmptyString
  /\ isValid (fst (validateConfiguration
                     (withNames EmptyString "DEV" inRange) g0)) = false
  /\ errorLevel (fst (validateConfiguration
                        (withNames EmptyString "DEV" inRange) g0)) = ERROR.
Proof.
  split; [ reflexivity | ].
  pose proof (validateConfiguration_empty_portName
                (withNames EmptyString "DEV" inRange) g0 eq_refl) as H.
  cbn zeta in H. split; [ exact (proj1 H) | exact (proj1 (proj2 H)) ].
Defined.

(** C5: a call with the kind DEVICE_COMMUNICATION_FAILURE and a source
    returns true (recoverable) and logs at ERROR; the error counter goes
    up by one, the other three counters stay, and one line is written. *)
Theorem handleRuntimeError_device_communication_failure
    (src : string) errorCode g :
  Num.INT_MIN <= errorCount_ g < Num.INT_MAX ->
  handleRuntimeError (Some src) (Some "DEVICE_COMMUNICATION_FAILURE")
                     errorCode g
  = (true,
     mkGlobals (infoCount_ g) (warningCount_ g) (errorCount_ g + 1)
       (fatalCount_ g)
       (mkLogLine ERROR src
          (RuntimeError "DEVICE_COMMUNICATION_FAILURE" errorCode)
        :: console g)).
Proof.
  intros H. unfold handleRuntimeError.
  cbn [String.eqb Ascii.eqb Bool.eqb].
  unfold bind, logError, internalLog, count, ret.
  cbn [infoCount_ warningCount_ errorCount_ fatalCount_ console].
  rewrite FloatFacts.incr_small by exact H. reflexivity.
Qed.

Lemma handleRuntimeError_device_communication_failure_witness :
  Num.INT_MIN <= errorCount_ g0 < Num.INT_MAX
  /\ fst (handleRuntimeError (Some "processThresholdLogic")
            (Some "DEVICE_COMMUNICATION_FAILURE") 3 g0) = true.
Proof.
  assert (H : Num.INT_MIN <= errorCount_ g0 < Num.INT_MAX)
    by (split; [ discriminate | reflexivity ]).
  split; [ exact H | ].
  rewrite (handleRuntimeError_device_communication_failure
             "processThresholdLogic" 3 g0 H).
  reflexivity.
Defined.

(** The table entry is DEVICE_COMMUNICATION: same verdict, its own
    message. *)
Example handleRuntimeError_device_communication :
  handleRuntimeError (Some "s") (Some "DEVICE_COMMUNICATION") 3 g0
  = (true,
     mkGlobals 0 0 1 0
       [mkLogLine ERROR "s" (Text "장치 통신 오류 - 연결 확인 필요")]).
Proof. vm_compute. reflexivity. Qed.

(** *** The names *)

(** C4, as stated, fails: a configuration whose names hold a dash, a
    blank and an exclamation mark is reported valid. *)
Lemma validateConfiguration_accepts_other_characters :
  ~ (forall config g,
       isIdentifier (portName config) = false
       \/ isIdentifier (devicePort config) = false ->
       isValid (fst (validateConfiguration config g)) = false).
Proof.
  intros H.
  specialize (H (withNames "TH-1" "DEV 0!" inRange) g0 (or_introl eq_refl)).
  vm_compute in H. discriminate.
Qed.

Lemma validateConfiguration_portName_refused config g :
  refusedLength (portName config) = true ->
  exists g',
    validateConfiguration config g
    = (mkValidationResult false ERROR
         "포트 이름이 유효하지 않습니다"
         "1-63자의 영숫자와 언더스코어만 사용하세요", g').
Proof.
  intros Ep. unfold validateConfiguration. cbv zeta. fold source.
  unfold bind at 1.
  pose proof (validateStringParameter_refused "portName" _ g Ep) as E.
  destruct (validateStringParameter "portName" _ _ _ _ g) as [ok g1].
  cbn [fst] in E. subst ok. eexists. reflexivity.
Qed.

Lemma validateConfiguration_devicePort_refused config g :
  refusedLength (portName config) = false ->
  refusedLength (devicePort config) = true ->
  exists g',
    validateConfiguration config g
    = (mkValidationResult false ERROR
         "장치 포트 이름이 유효하지 않습니다"
         "유효한 asyn 포트 이름을 지정하세요", g').
Proof.
  intros Ep Ed. unfold validateConfiguration. cbv zeta. fold source.
  unfold bind at 1.
  rewrite (validateStringParameter_passed "portName" _ g Ep).
  cbn [negb]. unfold bind at 1.
  pose proof (validateStringParameter_refused "devicePort" _ g Ed) as E.
  destruct (validateStringParameter "devicePort" _ _ _ _ g) as [ok g1].
  cbn [fst] in E. subst ok. eexists. reflexivity.
Qed.

(** With both names accepted the call goes on to the numbers, in the
    globals it was given. *)
Lemma validateConfiguration_names_passed config g portName' devicePort' :
  refusedLength (portName config) = false ->
  refusedLength (devicePort config) = false ->
  refusedLength portName' = false ->
  refusedLength devicePort' = false ->
  validateConfiguration (withNames portName' devicePort' config) g
  = validateConfiguration config g.
Proof.
  intros Hp Hd Hp' Hd'.
  unfold validateConfiguration. cbv zeta. fold source.
  cbn [portName devicePort deviceAddr updateRate priority thresholdValue
       hysteresis withNames].
  unfold bind at 1. symmetry. unfold bind at 1. symmetry.
  rewrite (validateStringParameter_passed "portName" _ g Hp).
  rewrite (validateStringParameter_passed "portName" _ g Hp').
  cbn [negb].
  unfold bind at 1. symmetry. unfold bind at 1. symmetry.
  rewrite (validateStringParameter_passed "devicePort" _ g Hd).
  rewrite (validateStringParameter_passed "devicePort" _ g Hd').
  reflexivity.
Qed.

(** C4, amended: a configuration is reported invalid, at ERROR, whenever
    portName or devicePort is empty or of 64 characters or more; beyond
    that the names play no part: with names of accepted length, other
    names of accepted length give the same result and the same globals,
    whatever their characters. *)
Theorem validateConfiguration_names config g :
  (refusedLength (portName config) = true
   \/ refusedLength (devicePort config) = true ->
   isValid (fst (validateConfiguration config g)) = false
   /\ errorLevel (fst (validateConfiguration config g)) = ERROR)
  /\ (refusedLength (portName config) = false ->
      refusedLength (devicePort config) = false ->
      forall portName' devicePort',
        refusedLength portName' = false ->
        refusedLength devicePort' = false ->
        validateConfiguration (withNames portName' devicePort' config) g
        = validateConfiguration config g).
Proof.
  split.
  - intros H.
    destruct (refusedLength (portName config)) eqn:Ep.
    + destruct (validateConfiguration_portName_refused config g Ep)
        as [g' E].
      rewrite E. split; reflexivity.
    + destruct H as [H | H]; [ discriminate | ].
      destruct (validateConfiguration_devicePort_refused config g Ep H)
        as [g' E].
      rewrite E. split; reflexivity.
  - intros Hp Hd p' d' Hp' Hd'.
    apply validateConfiguration_names_passed; assumption.
Qed.

Lemma validateConfiguration_names_witness :
  refusedLength (portName inRange) = false
  /\ refusedLength (devicePort inRange) = false
  /\ refusedLength "TH-1" = false
  /\ refusedLength "DEV 0!" = false
  /\ validateConfiguration (withNames "TH-1" "DEV 0!" inRange) g0
     = validateConfiguration inRange g0.
Proof.
  repeat (split; [ reflexivity | ]).
  exact (proj2 (validateConfiguration_names inRange g0)
               eq_refl eq_refl "TH-1" "DEV 0!" eq_refl eq_refl).
Defined.

Example validateConfiguration_inRange :
  validateConfiguration inRange g0
  = (mkValidationResult true INFO "구성이 유효합니다" EmptyString, g0).
Proof. vm_compute. reflexivity. Qed.

(** *** The thread priority *)

Lemma numbersInRange_fields config :
  numbersInRange config = true ->
  ((deviceAddr config <? 0)%Z || (deviceAddr config >? 255)%Z) = false
  /\ outside (updateRate config) Lit.d0_1 Lit.d1000 = false
  /\ outside (thresholdValue config) Lit.dm10 Lit.d10 = false
  /\ outside (hysteresis config) Lit.d0 Lit.d5 = false.
Proof.
  unfold numbersInRange. intros H.
  repeat (apply andb_prop in H; destruct H as [H ?]).
  repeat match goal with
         | K : negb _ = true |- _ => apply Bool.negb_true_iff in K
         end.
  repeat split; assumption.
Qed.

(** With only the priority outside its range, the call goes through all
    the checks; the result is at WARNING, and it is the relationship of
    hysteresis and threshold that decides [isValid]. *)
Lemma validateConfiguration_priority_only config g :
  refusedLength (portName config) = false ->
  refusedLength (devicePort config) = false ->
  numbersInRange config = true ->
  ((priority config <? 0)%Z || (priority config >? 99)%Z) = true ->
  validateConfiguration config g
  = ((if Num.gt (hysteresis config) (Num.fabs (thresholdValue config))
      then mkValidationResult true WARNING
             "히스테리시스가 임계값보다 큽니다"
             "히스테리시스를 임계값 절댓값보다 작게 설정하세요"
      else mkValidationResult false WARNING
             "스레드 우선순위가 권장 범위를 벗어났습니다"
             "0-99 범위의 값을 사용하세요 (기본값: 50)"),
     mkGlobals (infoCount_ g) (Num.incr (warningCount_ g)) (errorCount_ g)
       (fatalCount_ g)
       (mkLogLine WARNING source
          (IntOutOfRange "priority" (priority config) 0 99)
        :: console g)).
Proof.
  intros Hp Hd Hn Hprio.
  destruct (numbersInRange_fields config Hn) as (Ha & Hr & Ht & Hh).
  unfold validateConfiguration. cbv zeta. fold source.
  unfold bind at 1.
  rewrite (validateStringParameter_passed "portName" _ g Hp). cbn [negb].
  unfold bind at 1.
  rewrite (validateStringParameter_passed "devicePort" _ g Hd). cbn [negb].
  unfold bind at 1, validateIntParameter at 1. rewrite Ha.
  cbn [ret negb]. unfold bind at 1.
  rewrite (validateParameter_inside "updateRate" _ _ _ source g Hr).
  cbn [negb]. unfold bind at 1, validateIntParameter at 1. rewrite Hprio.
  unfold bind at 1, logError, internalLog, count, ret.
  cbn [negb infoCount_ warningCount_ errorCount_ fatalCount_ console].
  unfold bind at 1.
  rewrite (validateParameter_inside "thresholdValue" _ _ _ source _ Ht).
  cbn [negb]. unfold bind at 1.
  rewrite (validateParameter_inside "hysteresis" _ _ _ source _ Hh).
  cbn [negb].
  destruct (Num.gt (hysteresis config) (Num.fabs (thresholdValue config)));
    reflexivity.
Qed.

(** C3 at threshold 2.0 V, hysteresis 0.5 V and priority 100, the other
    fields inside their ranges: the result is reported invalid, at
    WARNING, with the priority message. *)
Theorem validateConfiguration_priority_100 :
  validateConfiguration (withPriority 100 inRange) g0
  = (mkValidationResult false WARNING
       "스레드 우선순위가 권장 범위를 벗어났습니다"
       "0-99 범위의 값을 사용하세요 (기본값: 50)",
     mkGlobals 0 1 0 0
       [mkLogLine WARNING source (IntOutOfRange "priority" 100 0 99)]).
Proof.
  rewrite validateConfiguration_priority_only by reflexivity.
  reflexivity.
Qed.

(** The same priority with the constructor's threshold 0.0 V and
    hysteresis 0.1 V: the relationship branch sets [isValid] again. *)
Example validateConfiguration_priority_100_defaults :
  fst (validateConfiguration
         (withThreshold Lit.d0 Lit.d0_1 (withPriority 100 inRange)) g0)
  = mkValidationResult true WARNING
      "히스테리시스가 임계값보다 큽니다"
      "히스테리시스를 임계값 절댓값보다 작게 설정하세요".
Proof. vm_compute. reflexivity. Qed.

(** The checks after the priority are made: a threshold out of range is
    still reported, at ERROR. *)
Example validateConfiguration_priority_then_threshold :
  fst (validateConfiguration
         (withThreshold 11%float 0.5%float (withPriority 100 inRange)) g0)
  = mkValidationResult false ERROR
      "임계값이 유효 범위를 벗어났습니다"
      "-10.0V ~ +10.0V 범위의 값을 사용하세요".
Proof. vm_compute. reflexivity. Qed.

End ErrorHandlerProps.

(** * Properties of the controller *)

Module ControllerProps.

Import ThresholdLogicController.
Import Samples.
Import Spec.
#[local] Set Warnings "-inexact-float".

Lemma readCurrentValueFromDevice_ok io o :
  readConnect io = asynSuccess ->
  readCurrentValueFromDevice io o
  = (asynSuccess, set_currentValue_ o (clamped (readValue io))).
Proof.
  intros H. unfold readCurrentValueFromDevice, clamped. rewrite H.
  cbn [asynStatus_eqb negb currentValue_ set_currentValue_].
  destruct (_ || _)%bool; destruct o; reflexivity.
Qed.

Lemma readCurrentValueFromDevice_failed io o :
  asynStatus_eqb (readConnect io) asynSuccess = false ->
  readCurrentValueFromDevice io o = (readConnect io, o).
Proof.
  intros H. unfold readCurrentValueFromDevice. rewrite H. reflexivity.
Qed.

Lemma asynStatus_eqb_eq a b : asynStatus_eqb a b = true -> a = b.
Proof. destruct a, b; intros H; try reflexivity; discriminate. Qed.

Lemma read_ok io o :
  readConnect io = asynSuccess ->
  exists v,
    readCurrentValueFromDevice io o = (asynSuccess, set_currentValue_ o v).
Proof.
  intros H. eexists. apply readCurrentValueFromDevice_ok, H.
Qed.

Lemma writeOutputStateToDevice_status io state :
  writeOutputStateToDevice io state = writeConnect io.
Proof.
  unfold writeOutputStateToDevice.
  destruct (negb _); reflexivity.
Qed.

(** With the device read answered, a cycle leaves in [outputState_] the
    decision taken on the sample, whatever the write answers. *)
Lemma processThresholdLogic_outputState io o g :
  enabled_ o = true ->
  readConnect io = asynSuccess ->
  outputState_ (fst (processThresholdLogic io o g))
  = newOutputState (snd (readCurrentValueFromDevice io o)).
Proof.
  intros He Hr.
  destruct (read_ok io o Hr) as [v Hv].
  unfold processThresholdLogic. rewrite He, Hv.
  cbn [negb asynStatus_eqb snd].
  set (o1 := set_currentValue_ o v).
  destruct (Bool.eqb (newOutputState o1) (outputState_ o1)) eqn:E.
  - apply Bool.eqb_prop in E. cbn [negb]. rewrite E.
    unfold ErrorHandler.bind.
    destruct (alarmStatus_ o1 =? 0); reflexivity.
  - cbn [negb]. unfold ErrorHandler.bind, writeOutputStateToDevice.
    destruct (writeConnect io); reflexivity.
Qed.

(** The decision, case by case. *)
Lemma newOutputState_rising o :
  outputState_ o = false ->
  newOutputState o = Num.gt (currentValue_ o) (thresholdValue_ o).
Proof.
  intros H. unfold newOutputState. rewrite H. cbn [negb].
  destruct (Num.gt _ _); reflexivity.
Qed.

Lemma newOutputState_falling o :
  outputState_ o = true ->
  newOutputState o
  = negb (Num.lt (currentValue_ o)
                 (PrimFloat.sub (thresholdValue_ o) (hysteresis_ o))).
Proof.
  intros H. unfold newOutputState. rewrite H. cbn [negb].
  destruct (Num.lt _ _); reflexivity.
Qed.

(** The code takes the decision the specification words. *)
Lemma newOutputState_nextState o :
  newOutputState o
  = nextState (outputState_ o) (currentValue_ o) (thresholdValue_ o)
              (hysteresis_ o).
Proof.
  unfold newOutputState, nextState.
  destruct (outputState_ o); cbn [negb andb].
  - destruct (Num.lt _ _); reflexivity.
  - destruct (Num.gt _ _); reflexivity.
Qed.

(** A cycle changes neither the enable flag nor the two settings. *)
Lemma processThresholdLogic_settings io o g :
  let o' := fst (processThresholdLogic io o g) in
  enabled_ o' = enabled_ o
  /\ thresholdValue_ o' = thresholdValue_ o
  /\ hysteresis_ o' = hysteresis_ o.
Proof.
  unfold processThresholdLogic.
  destruct (enabled_ o) eqn:He; cbn [negb];
    [ | repeat split; try reflexivity; exact He ].
  destruct (asynStatus_eqb (readConnect io) asynSuccess) eqn:Hc.
  - rewrite readCurrentValueFromDevice_ok by (apply asynStatus_eqb_eq, Hc).
    cbn [asynStatus_eqb negb]. rewrite writeOutputStateToDevice_status.
    set (o1 := set_currentValue_ o (clamped (readValue io))).
    destruct (Bool.eqb (newOutputState o1) (outputState_ o1)); cbn [negb];
      unfold ErrorHandler.bind.
    + destruct (alarmStatus_ o1 =? 0);
        repeat split; try reflexivity; exact He.
    + destruct (asynStatus_eqb (writeConnect io) asynSuccess); cbn [negb];
        repeat split; try reflexivity; exact He.
  - rewrite readCurrentValueFromDevice_failed by exact Hc.
    rewrite Hc. cbn [negb]. unfold ErrorHandler.bind.
    repeat split; try reflexivity; exact He.
Qed.

(** Over the passes of [run], with the controller enabled and every read
    answered, the output follows the specification's decision from sample
    to sample. *)
Lemma run_outputState ios : forall o g,
  enabled_ o = true ->
  Forall (fun io => readConnect io = asynSuccess) ios ->
  outputState_ (fst (run ios o g))
  = fold_left
      (fun out io =>
         nextState out (clamped (readValue io)) (thresholdValue_ o)
                   (hysteresis_ o))
      ios (outputState_ o).
Proof.
  induction ios as [ | io ios IH ]; intros o g He Hall.
  - reflexivity.
  - inversion Hall as [ | ? ? Hio Hrest ]; subst.
    cbn [run fold_left]. unfold ErrorHandler.bind, runIteration.
    rewrite He.
    pose proof (processThresholdLogic_outputState io o g He Hio) as Hout.
    pose proof (processThresholdLogic_settings io o g) as Hset.
    cbn zeta in Hset.
    destruct (processThresholdLogic io o g) as [o1 g1].
    cbn [fst] in Hout, Hset. destruct Hset as (He1 & Ht1 & Hh1).
    rewrite IH by (try assumption; congruence).
    rewrite Ht1, Hh1, Hout, readCurrentValueFromDevice_ok by exact Hio.
    cbn [snd]. rewrite newOutputState_nextState. reflexivity.
Qed.

(** C1: in a monitor cycle whose read succeeds, a low output goes high
    exactly when the sample is greater than the threshold, a high output
    goes low exactly when the sample is less than threshold minus
    hysteresis, in every other case the output is kept, and the
    hysteresis plays no part in the rising edge. *)
Theorem processThresholdLogic_hysteresis io o g :
  enabled_ o = true ->
  readConnect io = asynSuccess ->
  let sample := currentValue_ (snd (readCurrentValueFromDevice io o)) in
  let lowerThreshold := PrimFloat.sub (thresholdValue_ o) (hysteresis_ o) in
  let o' := fst (processThresholdLogic io o g) in
  (outputState_ o = false ->
     (outputState_ o' = true <-> Num.gt sample (thresholdValue_ o) = true))
  /\ (outputState_ o = true ->
     (outputState_ o' = false <-> Num.lt sample lowerThreshold = true))
  /\ (~ (outputState_ o = false /\ Num.gt sample (thresholdValue_ o) = true) ->
      ~ (outputState_ o = true /\ Num.lt sample lowerThreshold = true) ->
      outputState_ o' = outputState_ o)
  /\ (outputState_ o = false ->
      forall h, outputState_ (fst (processThresholdLogic io (set_hysteresis_ o h) g))
                = outputState_ o').
Proof.
  intros He Hr sample lowerThreshold o'.
  assert (Ho' : outputState_ o' = newOutputState (snd (readCurrentValueFromDevice io o)))
    by (apply processThresholdLogic_outputState; assumption).
  destruct (read_ok io o Hr) as [v Hv].
  assert (Hs : sample = v) by (unfold sample; rewrite Hv; reflexivity).
  rewrite Hv in Ho'. cbn [snd] in Ho'.
  split; [ | split; [ | split ] ].
  - intros Hlow. rewrite Ho', newOutputState_rising by exact Hlow.
    rewrite Hs. reflexivity.
  - intros Hhigh. rewrite Ho', newOutputState_falling by exact Hhigh.
    rewrite Hs. apply Bool.negb_false_iff.
  - intros Hn1 Hn2. rewrite Ho'. rewrite Hs in Hn1, Hn2.
    destruct (outputState_ o) eqn:Eo.
    + rewrite newOutputState_falling by exact Eo.
      change (currentValue_ (set_currentValue_ o v)) with v.
      change (thresholdValue_ (set_currentValue_ o v)) with (thresholdValue_ o).
      change (hysteresis_ (set_currentValue_ o v)) with (hysteresis_ o).
      fold lowerThreshold.
      destruct (Num.lt v lowerThreshold) eqn:El; [ | reflexivity ].
      exfalso. apply Hn2. split; reflexivity.
    + rewrite newOutputState_rising by exact Eo.
      change (currentValue_ (set_currentValue_ o v)) with v.
      change (thresholdValue_ (set_currentValue_ o v)) with (thresholdValue_ o).
      destruct (Num.gt v (thresholdValue_ o)) eqn:Eg; [ | reflexivity ].
      exfalso. apply Hn1. split; reflexivity.
  - intros Hlow h. rewrite Ho'.
    rewrite processThresholdLogic_outputState by assumption.
    destruct (read_ok io (set_hysteresis_ o h) Hr) as [v' Hv'].
    assert (v' = v).
    { unfold readCurrentValueFromDevice in Hv, Hv'. rewrite Hr in Hv, Hv'.
      cbn [asynStatus_eqb negb] in Hv, Hv'.
      cbn [currentValue_ set_currentValue_ set_hysteresis_] in Hv, Hv'.
      destruct (_ || _)%bool; inversion Hv; inversion Hv'; congruence. }
    subst v'. rewrite Hv'. cbn [snd].
    rewrite !newOutputState_rising by exact Hlow. reflexivity.
Qed.

Lemma processThresholdLogic_hysteresis_witness :
  enabled_ running = true
  /\ readConnect (answers 2.5%float) = asynSuccess
  /\ (outputState_ running = false ->
      (outputState_ (fst (processThresholdLogic (answers 2.5%float) running g0))
       = true
       <-> Num.gt (currentValue_
                     (snd (readCurrentValueFromDevice (answers 2.5%float)
                             running)))
                  (thresholdValue_ running) = true)).
Proof.
  split; [ reflexivity | split; [ reflexivity | ] ].
  exact (proj1 (processThresholdLogic_hysteresis (answers 2.5%float) running g0
                  eq_refl eq_refl)).
Defined.

(** The scenario of the specification: threshold 2.0 V, hysteresis 0.5 V,
    output low, samples 1.0, 2.5, 1.8, 1.4. *)
Example scenario_outputs :
  let r1 := processThresholdLogic (answers 1.0%float) running g0 in
  let r2 := processThresholdLogic (answers 2.5%float) (fst r1) (snd r1) in
  let r3 := processThresholdLogic (answers 1.8%float) (fst r2) (snd r2) in
  let r4 := processThresholdLogic (answers 1.4%float) (fst r3) (snd r3) in
  map outputState_ [fst r1; fst r2; fst r3; fst r4]
  = [false; true; true; false].
Proof. vm_compute. reflexivity. Qed.

(** The rising edge uses the bare threshold: with threshold 2.0 V and
    hysteresis 0.5 V a sample of 2.25 V, below 2.5 V, raises the output. *)
Example rising_edge_below_threshold_plus_hysteresis :
  outputState_ (fst (processThresholdLogic (answers 2.25%float) running g0))
  = true.
Proof. vm_compute. reflexivity. Qed.

(** C8: when the decision changes the output and the device write
    fails, the cycle ends with the new value in [outputState_] (and the
    old one in [lastOutputState_]), the OutputState parameter set to the
    new value, [alarmStatus_] at 2 with MAJOR severity on the parameter,
    and the WRITE_ALARM / MAJOR_ALARM alarm reported last on the
    console. *)
Theorem write_failure_keeps_new_outputState io o g :
  enabled_ o = true ->
  readConnect io = asynSuccess ->
  writeConnect io <> asynSuccess ->
  newOutputState (snd (readCurrentValueFromDevice io o)) <> outputState_ o ->
  let r := processThresholdLogic io o g in
  outputState_ (fst r) = negb (outputState_ o)
  /\ lastOutputState_ (fst r) = outputState_ o
  /\ asynPortDriver.integerParam (params (fst r)) P_OutputState
     = (if negb (outputState_ o) then 1 else 0)
  /\ alarmStatus_ (fst r) = 2
  /\ asynPortDriver.paramAlarmSeverity (params (fst r)) P_OutputState = 2
  /\ ErrorHandler.console (snd r)
     = ErrorHandler.mkLogLine ErrorHandler.ERROR
         "ErrorHandler::setAlarmStatus"
         (ErrorHandler.AlarmSet ErrorHandler.WRITE_ALARM
                                ErrorHandler.MAJOR_ALARM)
       :: ErrorHandler.mkLogLine ErrorHandler.ERROR
            "ErrorHandler::setAlarmStatus"
            (ErrorHandler.AlarmSet ErrorHandler.COMM_ALARM
                                   ErrorHandler.MAJOR_ALARM)
       :: ErrorHandler.mkLogLine ErrorHandler.ERROR "processThresholdLogic"
            (ErrorHandler.CommunicationError (devicePortName_ o)
               (deviceAddr_ o) "출력상태 설정")
       :: ErrorHandler.console g.
Proof.
  intros He Hr Hw Hch r.
  destruct (read_ok io o Hr) as [v Hv].
  rewrite Hv in Hch. cbn [snd] in Hch.
  assert (Hneg : newOutputState (set_currentValue_ o v) = negb (outputState_ o)).
  { destruct (newOutputState (set_currentValue_ o v)), (outputState_ o);
      try reflexivity; exfalso; apply Hch; reflexivity. }
  assert (Hst : asynStatus_eqb (writeConnect io) asynSuccess = false).
  { destruct (writeConnect io); try reflexivity. exfalso. apply Hw. reflexivity. }
  unfold r, processThresholdLogic. rewrite He, Hv.
  cbn [negb asynStatus_eqb snd].
  rewrite Hneg.
  change (outputState_ (set_currentValue_ o v)) with (outputState_ o).
  rewrite Bool.eqb_negb1. cbn [negb].
  rewrite writeOutputStateToDevice_status, Hst. cbn [negb].
  unfold ErrorHandler.bind.
  destruct (outputState_ o); repeat split; reflexivity.
Qed.

Lemma write_failure_keeps_new_outputState_witness :
  enabled_ running = true
  /\ readConnect (refusesWrite 2.5%float) = asynSuccess
  /\ writeConnect (refusesWrite 2.5%float) <> asynSuccess
  /\ outputState_ running = false
  /\ outputState_
       (fst (processThresholdLogic (refusesWrite 2.5%float) running g0))
     = negb (outputState_ running).
Proof.
  split; [ reflexivity | split; [ reflexivity | split; [ discriminate | ] ] ].
  split; [ reflexivity | ].
  refine (proj1 (write_failure_keeps_new_outputState
                   (refusesWrite 2.5%float) running g0 eq_refl eq_refl _ _)).
  - discriminate.
  - vm_compute. discriminate.
Defined.

(** *** The setters *)

Lemma setThreshold_rejected value o g :
  outside value Lit.dm10 Lit.d10 = true ->
  fst (writeFloat64 (mkAsynUser P_ThresholdValue) value o g) = (asynError, o).
Proof.
  intros H. unfold writeFloat64. cbn [reason Z.eqb P_ThresholdValue].
  unfold ErrorHandler.bind at 1.
  pose proof (ErrorHandlerProps.validateParameter_outside "thresholdValue" value Lit.dm10
                Lit.d10 "writeFloat64" g H) as Hv.
  destruct (ErrorHandler.validateParameter _ _ _ _ _ g) as [ok g1].
  cbn [fst] in Hv. subst ok. reflexivity.
Qed.

Lemma setHysteresis_rejected value o g :
  outside value Lit.d0 Lit.d5 = true ->
  fst (writeFloat64 (mkAsynUser P_Hysteresis) value o g) = (asynError, o).
Proof.
  intros H. unfold writeFloat64.
  cbn [reason Z.eqb P_ThresholdValue P_Hysteresis Pos.eqb].
  unfold ErrorHandler.bind at 1.
  pose proof (ErrorHandlerProps.validateParameter_outside "hysteresis" value Lit.d0
                Lit.d5 "writeFloat64" g H) as Hv.
  destruct (ErrorHandler.validateParameter _ _ _ _ _ g) as [ok g1].
  cbn [fst] in Hv. subst ok. reflexivity.
Qed.

(** An accepted value is stored (so the rejection is not all the setter
    ever does). *)
Lemma setThreshold_accepted value o g :
  outside value Lit.dm10 Lit.d10 = false ->
  exists g',
    writeFloat64 (mkAsynUser P_ThresholdValue) value o g
    = (setDoubleParam (set_thresholdValue_ o value) P_ThresholdValue value,
       g').
Proof.
  intros H. unfold writeFloat64. cbn [reason Z.eqb P_ThresholdValue].
  unfold ErrorHandler.bind at 1.
  rewrite (ErrorHandlerProps.validateParameter_inside _ _ _ _ _ _ H). cbn [negb].
  unfold ErrorHandler.bind.
  destruct (Num.lt (Num.fabs value) (hysteresis_ o)); eexists; reflexivity.
Qed.

Lemma setHysteresis_accepted value o g :
  outside value Lit.d0 Lit.d5 = false ->
  writeFloat64 (mkAsynUser P_Hysteresis) value o g
  = (setDoubleParam (set_hysteresis_ o value) P_Hysteresis value, g).
Proof.
  intros H. unfold writeFloat64.
  cbn [reason Z.eqb P_ThresholdValue P_Hysteresis Pos.eqb].
  unfold ErrorHandler.bind at 1.
  rewrite (ErrorHandlerProps.validateParameter_inside _ _ _ _ _ _ H). reflexivity.
Qed.

(** C6: a threshold that is NaN, infinite or outside [-10.0, 10.0], and a
    hysteresis that is NaN, infinite or outside [0.0, 5.0], is answered
    with asynError and leaves the whole object, [thresholdValue_] and
    [hysteresis_] included, as it was. *)
Theorem rejected_setter_keeps_state value o g :
  (outside value Lit.dm10 Lit.d10 = true ->
     fst (writeFloat64 (mkAsynUser P_ThresholdValue) value o g)
     = (asynError, o))
  /\ (outside value Lit.d0 Lit.d5 = true ->
     fst (writeFloat64 (mkAsynUser P_Hysteresis) value o g)
     = (asynError, o)).
Proof.
  split; [ apply setThreshold_rejected | apply setHysteresis_rejected ].
Qed.

Lemma rejected_setter_keeps_state_witness :
  outside 10.5%float Lit.dm10 Lit.d10 = true
  /\ outside PrimFloat.nan Lit.d0 Lit.d5 = true
  /\ fst (writeFloat64 (mkAsynUser P_ThresholdValue) 10.5%float configured g0)
     = (asynError, configured)
  /\ fst (writeFloat64 (mkAsynUser P_Hysteresis) PrimFloat.nan configured g0)
     = (asynError, configured).
Proof.
  split; [ reflexivity | split; [ reflexivity | split ] ].
  - exact (proj1 (rejected_setter_keeps_state 10.5%float configured g0)
                 eq_refl).
  - exact (proj2 (rejected_setter_keeps_state PrimFloat.nan configured g0)
                 eq_refl).
Defined.

(** *** Enable *)

(** The value the Enable branch goes on with. *)
Lemma writeInt32_Enable_nonzero pasynUser value spawn o g :
  reason pasynUser = P_Enable ->
  value <> 0 ->
  writeInt32 pasynUser value spawn o g = writeInt32 pasynUser 1 spawn o g.
Proof.
  intros Hr Hv. unfold writeInt32. rewrite Hr.
  cbn [Z.eqb P_Enable Pos.eqb].
  apply Z.eqb_neq in Hv. rewrite Hv. cbn [negb andb].
  destruct (value =? 1) eqn:E.
  - apply Z.eqb_eq in E. subst value. reflexivity.
  - reflexivity.
Qed.

Lemma validateParameters_frame o :
  let o' := snd (validateParameters o) in
  enabled_ o' = enabled_ o
  /\ monitorThread_ o' = monitorThread_ o
  /\ threadRunning_ o' = threadRunning_ o
  /\ threadExit_ o' = threadExit_ o
  /\ devicePortName_ o' = devicePortName_ o
  /\ outputState_ o' = outputState_ o
  /\ thresholdValue_ o' = thresholdValue_ o
  /\ hysteresis_ o' = hysteresis_ o.
Proof.
  unfold validateParameters. cbn [snd].
  destruct (_ || _)%bool; repeat split; reflexivity.
Qed.

Lemma validateParameters_empty_port o :
  devicePortName_ o = EmptyString -> fst (validateParameters o) = false.
Proof.
  intros H. unfold validateParameters. rewrite H. cbn [fst String.length Nat.eqb].
  repeat match goal with |- context [if ?c then _ else _] => destruct c end;
    reflexivity.
Qed.

(** C7: with the controller disabled, a write of a nonzero value to
    Enable is answered with asynError, leaves [enabled_] false and starts
    no thread, whenever [validateParameters] fails or the device port name
    is empty; an empty device port name alone makes [validateParameters]
    fail. *)
Theorem setEnabled_rejected value spawn o g :
  enabled_ o = false ->
  value <> 0 ->
  fst (validateParameters o) = false \/ devicePortName_ o = EmptyString ->
  let r := writeInt32 (mkAsynUser P_Enable) value spawn o g in
  fst (fst r) = asynError
  /\ enabled_ (snd (fst r)) = false
  /\ monitorThread_ (snd (fst r)) = monitorThread_ o
  /\ threadRunning_ (snd (fst r)) = threadRunning_ o
  /\ snd r = g.
Proof.
  intros He Hv Hbad r.
  assert (Hf : fst (validateParameters o) = false).
  { destruct Hbad as [H | H]; [ exact H | apply validateParameters_empty_port, H ]. }
  unfold r. rewrite (writeInt32_Enable_nonzero _ value) by (exact Hv || reflexivity).
  unfold writeInt32. cbn [reason Z.eqb P_Enable Pos.eqb negb andb].
  rewrite He. cbn [Bool.eqb negb].
  pose proof (validateParameters_frame o) as Hfr. cbn zeta in Hfr.
  destruct (validateParameters o) as [ok o1]. cbn [fst snd] in Hf, Hfr.
  subst ok. cbn [negb].
  destruct Hfr as (H1 & H2 & H3 & _).
  unfold ErrorHandler.ret. cbn [fst snd].
  rewrite H1, H2, H3, He. repeat split; reflexivity.
Qed.

Lemma setEnabled_rejected_witness :
  enabled_ noDevice = false
  /\ devicePortName_ noDevice = EmptyString
  /\ fst (fst (writeInt32 (mkAsynUser P_Enable) 1 Started noDevice g0))
     = asynError
  /\ enabled_ (snd (fst (writeInt32 (mkAsynUser P_Enable) 1 Started noDevice
                           g0))) = false.
Proof.
  split; [ reflexivity | split; [ reflexivity | ] ].
  assert (H1 : 1 <> 0) by discriminate.
  pose proof (setEnabled_rejected 1 Started noDevice g0 eq_refl H1
                (or_intror eq_refl)) as H.
  cbn zeta in H. split; [ exact (proj1 H) | exact (proj1 (proj2 H)) ].
Defined.

Lemma writeInt32_Enable_one_stored spawn o g :
  let r := writeInt32 (mkAsynUser P_Enable) 1 spawn o g in
  fst (fst r) = asynSuccess ->
  asynPortDriver.integerParam (params (snd (fst r))) P_Enable = 1.
Proof.
  unfold writeInt32.
  cbn [reason Z.eqb P_Enable Pos.eqb negb andb].
  destruct (enabled_ o) eqn:He; cbn [Bool.eqb negb].
  - intros _. reflexivity.
  - destruct (validateParameters o) as [ok o1].
    destruct ok; cbn [negb]; [ | discriminate ].
    destruct (Nat.eqb (String.length (devicePortName_ o1)) 0);
      [ discriminate | ].
    intros _. unfold startMonitoring, ErrorHandler.bind.
    cbn [setIntegerParam enabled_ set_enabled_ set_params fst snd
         asynPortDriver.setIntegerParam paramType P_Enable P_ThresholdValue
         P_CurrentValue P_OutputState P_CompareResult Z.eqb Pos.eqb
         threadRunning_ params].
    destruct (threadRunning_ o1); [ reflexivity | ].
    destruct spawn as [ | what ].
    + destruct (_ || _)%bool; reflexivity.
    + unfold ErrorHandler.handleThreadError, ErrorHandler.bind.
      destruct (Num.lt _ _ || Num.gt _ _)%bool;
        destruct (ErrorHandler.strstr what "FATAL"
                  || ErrorHandler.strstr what "SEGFAULT")%bool;
        reflexivity.
Qed.

Lemma writeInt32_Enable_zero spawn o g :
  let r := writeInt32 (mkAsynUser P_Enable) 0 spawn o g in
  fst (fst r) = asynSuccess
  /\ asynPortDriver.integerParam (params (snd (fst r))) P_Enable = 0
  /\ enabled_ (snd (fst r)) = false.
Proof.
  destruct o as [pn pu pl mt tr te th cv os en hy ur al dp da lu lo].
  unfold writeInt32, stopMonitoring, ErrorHandler.bind.
  destruct en, tr, mt; repeat split; reflexivity.
Qed.

Lemma validateParameters_port o :
  fst (validateParameters o) = true ->
  Nat.eqb (String.length (devicePortName_ (snd (validateParameters o)))) 0
  = false.
Proof.
  intros Hok.
  destruct (validateParameters_frame o) as (_ & _ & _ & _ & Hd & _).
  rewrite Hd. destruct (devicePortName_ o) eqn:Ep; [ | reflexivity ].
  rewrite (validateParameters_empty_port o Ep) in Hok. discriminate Hok.
Qed.

(** A write of 1 to Enable is refused only as a first enabling that
    [validateParameters] does not let through; the flag afterwards says
    whether the controller is enabled. *)
Lemma writeInt32_Enable_one spawn o g :
  let r := writeInt32 (mkAsynUser P_Enable) 1 spawn o g in
  fst (fst r)
  = (if enabled_ o || fst (validateParameters o) then asynSuccess
     else asynError)
  /\ enabled_ (snd (fst r)) = (enabled_ o || fst (validateParameters o)).
Proof.
  cbv zeta.
  pose proof (validateParameters_port o) as Hp.
  destruct (validateParameters_frame o) as (Hen & _).
  unfold writeInt32.
  cbn [reason Z.eqb P_Enable Pos.eqb negb andb].
  destruct (enabled_ o) eqn:He; cbn [Bool.eqb negb orb].
  - split; [ reflexivity | ].
    destruct o; cbn in He |- *. exact He.
  - destruct (validateParameters o) as [ok o1]. cbn [fst snd] in *.
    destruct ok; cbn [negb].
    + rewrite (Hp eq_refl).
      unfold startMonitoring, ErrorHandler.bind.
      cbn [setIntegerParam enabled_ set_enabled_ set_params fst snd
           asynPortDriver.setIntegerParam paramType P_Enable P_ThresholdValue
           P_CurrentValue P_OutputState P_CompareResult Z.eqb Pos.eqb
           threadRunning_ params].
      destruct (threadRunning_ o1); [ split; reflexivity | ].
      destruct spawn as [ | what ].
      * destruct (_ || _)%bool; split; reflexivity.
      * unfold ErrorHandler.handleThreadError, ErrorHandler.bind.
        destruct (Num.lt _ _ || Num.gt _ _)%bool;
          destruct (ErrorHandler.strstr what "FATAL"
                    || ErrorHandler.strstr what "SEGFAULT")%bool;
          split; reflexivity.
    + split; [ reflexivity | exact Hen ].
Qed.

(** C10: a write to Enable of any nonzero value, 0 and 1 apart or not, is
    an enable request and does exactly what a write of 1 does: the same
    status, the same object and the same globals.  It is answered with
    asynSuccess whenever the controller is enabled already or
    [validateParameters] passes (the only refusal is the one a write of 1
    meets too), the controller is then enabled and the Enable parameter
    holds 1, not the value written; a write of 0 is accepted, leaves 0 in
    the parameter and the controller disabled. *)
Theorem enable_value_coerced value spawn o g :
  value <> 0 ->
  let r := writeInt32 (mkAsynUser P_Enable) value spawn o g in
  r = writeInt32 (mkAsynUser P_Enable) 1 spawn o g
  /\ fst (fst r)
     = (if enabled_ o || fst (validateParameters o) then asynSuccess
        else asynError)
  /\ enabled_ (snd (fst r)) = (enabled_ o || fst (validateParameters o))
  /\ (fst (fst r) = asynSuccess ->
      asynPortDriver.integerParam (params (snd (fst r))) P_Enable = 1)
  /\ (fst (fst (writeInt32 (mkAsynUser P_Enable) 0 spawn o g)) = asynSuccess
      /\ asynPortDriver.integerParam
           (params (snd (fst (writeInt32 (mkAsynUser P_Enable) 0 spawn o
                                g)))) P_Enable = 0
      /\ enabled_ (snd (fst (writeInt32 (mkAsynUser P_Enable) 0 spawn o g)))
         = false).
Proof.
  intros Hv. cbv zeta.
  assert (E : writeInt32 (mkAsynUser P_Enable) value spawn o g
              = writeInt32 (mkAsynUser P_Enable) 1 spawn o g)
    by (apply writeInt32_Enable_nonzero; [ reflexivity | exact Hv ]).
  pose proof (writeInt32_Enable_one spawn o g) as K. cbv zeta in K.
  rewrite E.
  split; [ reflexivity | ].
  split; [ exact (proj1 K) | ].
  split; [ exact (proj2 K) | ].
  split; [ apply writeInt32_Enable_one_stored | ].
  exact (writeInt32_Enable_zero spawn o g).
Qed.

Lemma enable_value_coerced_witness :
  7 <> 0
  /\ writeInt32 (mkAsynUser P_Enable) 7 Started configured g0
     = writeInt32 (mkAsynUser P_Enable) 1 Started configured g0
  /\ fst (fst (writeInt32 (mkAsynUser P_Enable) 7 Started configured g0))
     = asynSuccess
  /\ enabled_
       (snd (fst (writeInt32 (mkAsynUser P_Enable) 7 Started configured g0)))
     = true.
Proof.
  assert (H : 7 <> 0) by discriminate.
  pose proof (enable_value_coerced 7 Started configured g0 H) as K.
  cbv zeta in K.
  destruct K as (K1 & K2 & K3 & _).
  split; [ exact H | split; [ exact K1 | split ] ].
  - exact K2.
  - exact K3.
Defined.

Example enable_with_seven :
  let r := writeInt32 (mkAsynUser P_Enable) 7 Started configured g0 in
  fst (fst r) = asynSuccess
  /\ enabled_ (snd (fst r)) = true
  /\ threadRunning_ (snd (fst r)) = true
  /\ asynPortDriver.integerParam (params (snd (fst r))) P_Enable = 1.
Proof. vm_compute. repeat split; reflexivity. Qed.

End ControllerProps.

(** * Further properties of the validator and of the fault classifier *)

Module ErrorHandlerMore.

Import ErrorHandler.
Import Spec.
Import Samples.
Import Invariants.
Local Open Scope string_scope.

Lemma validateConfiguration_fst config g :
  fst (validateConfiguration config g) = verdict config.
Proof.
  unfold validateConfiguration, verdict. cbv zeta. fold source.
  unfold bind at 1.
  destruct (refusedLength (portName config)) eqn:Ep.
  { pose proof (ErrorHandlerProps.validateStringParameter_refused
                  "portName" _ g Ep) as E.
    destruct (validateStringParameter "portName" _ _ _ _ g) as [ok g1].
    cbn [fst] in E. subst ok. reflexivity. }
  rewrite (ErrorHandlerProps.validateStringParameter_passed "portName" _ g Ep).
  cbn [negb]. unfold bind at 1.
  destruct (refusedLength (devicePort config)) eqn:Ed.
  { pose proof (ErrorHandlerProps.validateStringParameter_refused
                  "devicePort" _ g Ed) as E.
    destruct (validateStringParameter "devicePort" _ _ _ _ g) as [ok g1].
    cbn [fst] in E. subst ok. reflexivity. }
  rewrite (ErrorHandlerProps.validateStringParameter_passed "devicePort" _ g Ed).
  cbn [negb]. unfold bind at 1, validateIntParameter at 1.
  destruct ((deviceAddr config <? 0)%Z || (deviceAddr config >? 255)%Z)%bool;
    [ reflexivity | ].
  cbn [ret negb]. unfold bind at 1.
  destruct (outside (updateRate config) Lit.d0_1 Lit.d1000) eqn:Er.
  { pose proof (ErrorHandlerProps.validateParameter_outside
                  "updateRate" _ _ _ source g Er) as E.
    destruct (validateParameter "updateRate" _ _ _ _ g) as [ok g1].
    cbn [fst] in E. subst ok. reflexivity. }
  rewrite (ErrorHandlerProps.validateParameter_inside "updateRate" _ _ _
             source g Er).
  cbn [negb]. unfold bind at 1.
  destruct (validateIntParameter "priority" (priority config) 0 99 source g)
    as [okp gp] eqn:Evp.
  assert (Hokp : okp = negb ((priority config <? 0)%Z
                             || (priority config >? 99)%Z)%bool).
  { unfold validateIntParameter in Evp.
    destruct ((priority config <? 0)%Z || (priority config >? 99)%Z)%bool;
      inversion Evp; reflexivity. }
  unfold bind at 1.
  destruct (outside (thresholdValue config) Lit.dm10 Lit.d10) eqn:Et.
  { pose proof (ErrorHandlerProps.validateParameter_outside
                  "thresholdValue" _ _ _ source gp Et) as E.
    destruct (validateParameter "thresholdValue" _ _ _ _ gp) as [ok g1].
    cbn [fst] in E. subst ok. reflexivity. }
  rewrite (ErrorHandlerProps.validateParameter_inside "thresholdValue" _ _ _
             source gp Et).
  cbn [negb]. unfold bind at 1.
  destruct (outside (hysteresis config) Lit.d0 Lit.d5) eqn:Eh.
  { pose proof (ErrorHandlerProps.validateParameter_outside
                  "hysteresis" _ _ _ source gp Eh) as E.
    destruct (validateParameter "hysteresis" _ _ _ _ gp) as [ok g1].
    cbn [fst] in E. subst ok. reflexivity. }
  rewrite (ErrorHandlerProps.validateParameter_inside "hysteresis" _ _ _
             source gp Eh).
  cbn [negb]. subst okp.
  destruct (Num.gt (hysteresis config) (Num.fabs (thresholdValue config)));
    destruct ((priority config <? 0)%Z || (priority config >? 99)%Z)%bool;
    reflexivity.
Qed.

(** [validateConfiguration] reports the first refused field in the order
    portName, devicePort, deviceAddr, updateRate, thresholdValue,
    hysteresis; with none refused it warns about hysteresis above
    |threshold| (still valid), else about the priority (not valid), else
    reports success.  The result does not depend on the globals. *)
Theorem validateConfiguration_first_refusal config g g' :
  fst (validateConfiguration config g) = verdict config
  /\ fst (validateConfiguration config g')
     = fst (validateConfiguration config g).
Proof.
  split; [ apply validateConfiguration_fst | ].
  rewrite !validateConfiguration_fst. reflexivity.
Qed.

Lemma verdict_valid config :
  isValid (verdict config) = true ->
  refusedLength (portName config) = false
  /\ refusedLength (devicePort config) = false
  /\ numbersInRange config = true.
Proof.
  unfold verdict, numbersInRange.
  destruct (refusedLength (portName config)); [ discriminate | ].
  destruct (refusedLength (devicePort config)); [ discriminate | ].
  destruct ((deviceAddr config <? 0)%Z || (deviceAddr config >? 255)%Z)%bool;
    [ discriminate | ].
  destruct (outside (updateRate config) Lit.d0_1 Lit.d1000);
    [ discriminate | ].
  destruct (outside (thresholdValue config) Lit.dm10 Lit.d10);
    [ discriminate | ].
  destruct (outside (hysteresis config) Lit.d0 Lit.d5); [ discriminate | ].
  intros _. repeat split.
Qed.

(** A configuration reported valid has both names of 1 to 63 characters and
    deviceAddr, updateRate, thresholdValue and hysteresis inside their
    ranges. *)
Theorem validateConfiguration_valid_sound config g :
  isValid (fst (validateConfiguration config g)) = true ->
  refusedLength (portName config) = false
  /\ refusedLength (devicePort config) = false
  /\ numbersInRange config = true.
Proof.
  rewrite validateConfiguration_fst. apply verdict_valid.
Qed.

Lemma validateConfiguration_valid_sound_witness :
  isValid (fst (validateConfiguration inRange g0)) = true
  /\ numbersInRange inRange = true.
Proof.
  split; [ reflexivity | ].
  exact (proj2 (proj2 (validateConfiguration_valid_sound inRange g0 eq_refl))).
Defined.

Lemma validateConfiguration_in_range config g :
  refusedLength (portName config) = false ->
  refusedLength (devicePort config) = false ->
  numbersInRange config = true ->
  ((priority config <? 0)%Z || (priority config >? 99)%Z)%bool = false ->
  validateConfiguration config g
  = ((if Num.gt (hysteresis config) (Num.fabs (thresholdValue config))
      then mkValidationResult true WARNING
             "히스테리시스가 임계값보다 큽니다"
             "히스테리시스를 임계값 절댓값보다 작게 설정하세요"
      else mkValidationResult true INFO "구성이 유효합니다" EmptyString),
     g).
Proof.
  intros Hp Hd Hn Hprio.
  destruct (ErrorHandlerProps.numbersInRange_fields config Hn)
    as (Ha & Hr & Ht & Hh).
  unfold validateConfiguration. cbv zeta. fold source.
  unfold bind at 1.
  rewrite (ErrorHandlerProps.validateStringParameter_passed
             "portName" _ g Hp).
  cbn [negb]. unfold bind at 1.
  rewrite (ErrorHandlerProps.validateStringParameter_passed
             "devicePort" _ g Hd).
  cbn [negb]. unfold bind at 1, validateIntParameter at 1. rewrite Ha.
  cbn [ret negb]. unfold bind at 1.
  rewrite (ErrorHandlerProps.validateParameter_inside
             "updateRate" _ _ _ source g Hr).
  cbn [negb]. unfold bind at 1, validateIntParameter at 1. rewrite Hprio.
  cbn [ret negb]. unfold bind at 1.
  rewrite (ErrorHandlerProps.validateParameter_inside
             "thresholdValue" _ _ _ source g Ht).
  cbn [negb]. unfold bind at 1.
  rewrite (ErrorHandlerProps.validateParameter_inside
             "hysteresis" _ _ _ source g Hh).
  cbn [negb].
  destruct (Num.gt (hysteresis config) (Num.fabs (thresholdValue config)));
    reflexivity.
Qed.

(** With every field inside its range, the priority included, the
    configuration is reported valid and nothing is logged or counted, also
    when the hysteresis is above |threshold| and the result carries that
    warning. *)
Theorem validateConfiguration_in_range_silent config g :
  refusedLength (portName config) = false ->
  refusedLength (devicePort config) = false ->
  numbersInRange config = true ->
  ((priority config <? 0)%Z || (priority config >? 99)%Z)%bool = false ->
  isValid (fst (validateConfiguration config g)) = true
  /\ errorLevel (fst (validateConfiguration config g))
     = (if Num.gt (hysteresis config) (Num.fabs (thresholdValue config))
        then WARNING else INFO)
  /\ snd (validateConfiguration config g) = g.
Proof.
  intros Hp Hd Hn Hprio.
  rewrite (validateConfiguration_in_range config g Hp Hd Hn Hprio).
  destruct (Num.gt (hysteresis config) (Num.fabs (thresholdValue config)));
    repeat split.
Qed.

Lemma validateConfiguration_in_range_silent_witness :
  refusedLength (portName inRange) = false
  /\ refusedLength (devicePort inRange) = false
  /\ numbersInRange inRange = true
  /\ snd (validateConfiguration inRange g0) = g0.
Proof.
  repeat (split; [ reflexivity | ]).
  exact (proj2 (proj2 (validateConfiguration_in_range_silent inRange g0
                         eq_refl eq_refl eq_refl eq_refl))).
Defined.

(** The severity and the validity of a result agree: a result at ERROR is
    not valid, a result at INFO is valid and carries the success message
    and no suggestion, and no result is at FATAL. *)
Theorem validateConfiguration_level_consistent config g :
  match errorLevel (fst (validateConfiguration config g)) with
  | INFO =>
      fst (validateConfiguration config g)
      = mkValidationResult true INFO "구성이 유효합니다" EmptyString
  | WARNING => True
  | ERROR => isValid (fst (validateConfiguration config g)) = false
  | FATAL => False
  end.
Proof.
  rewrite validateConfiguration_fst. unfold verdict.
  repeat match goal with
         | |- context [if ?c then _ else _] => destruct c
         end; cbn [errorLevel isValid]; reflexivity || exact I.
Qed.

(** *** The fault classifier *)

(** [handleRuntimeError] answers false, not recoverable, exactly for a NULL
    source, a NULL type or the type MEMORY_ALLOCATION, and writes exactly
    one line in every case. *)
Theorem handleRuntimeError_recoverable_iff src errorType errorCode g :
  (fst (handleRuntimeError src errorType errorCode g) = false
   <-> src = None \/ errorType = None
       \/ errorType = Some "MEMORY_ALLOCATION")
  /\ lines (snd (handleRuntimeError src errorType errorCode g))
     = S (lines g).
Proof.
  unfold handleRuntimeError, lines.
  destruct src as [ s | ]; destruct errorType as [ t | ];
    try (split; [ split; [ intros _; auto | reflexivity ] | reflexivity ]).
  destruct (String.eqb t "MEMORY_ALLOCATION") eqn:E1.
  { apply String.eqb_eq in E1. subst t.
    split; [ split; [ intros _; auto | reflexivity ] | reflexivity ]. }
  apply String.eqb_neq in E1.
  assert (Hno : ~ (Some s = None \/ Some t = None
                   \/ Some t = Some "MEMORY_ALLOCATION")).
  { intros [ H | [ H | H ] ]; try discriminate.
    inversion H. contradiction. }
  repeat match goal with
         | |- context [if ?c then _ else _] => destruct c
         end;
    (split; [ split; [ discriminate | intros H; contradiction ]
            | reflexivity ]).
Qed.

(** After [resetErrorStatistics] the statistics read one information
    message and nothing else, whatever they were: the reset logs itself
    after it has cleared the counters. *)
Theorem resetErrorStatistics_then_get g :
  fst (getErrorStatistics (snd (resetErrorStatistics g))) = (1, 0, 0, 0)
  /\ lines (snd (resetErrorStatistics g)) = S (lines g).
Proof. split; reflexivity. Qed.

End ErrorHandlerMore.

(** * Further properties of the comparisons and of the stateless form *)

Module ThresholdCompareMore.

Import ThresholdCompare.
Local Open Scope float_scope.

Lemma Prim2SF_nan x : Num.isnan x = true -> Prim2SF x = S754_nan.
Proof.
  unfold Num.isnan. intros H. unfold Prim2SF. rewrite H. reflexivity.
Qed.

(** A NaN is neither below nor above anything. *)
Lemma nan_le x y :
  Num.isnan x = true -> Num.le x y = false /\ Num.ge x y = false.
Proof.
  intros H. unfold Num.le, Num.ge. rewrite !leb_spec.
  rewrite (Prim2SF_nan x H). unfold SFleb.
  split; [ reflexivity | destruct (Prim2SF y); reflexivity ].
Qed.

Lemma lt_asym x y : Num.lt x y = true -> Num.lt y x = false.
Proof.
  unfold Num.lt. rewrite !ltb_spec. unfold SFltb.
  rewrite (FloatFacts.SFcompare_antisym (Prim2SF x) (Prim2SF y)).
  destruct (SFcompare (Prim2SF x) (Prim2SF y)) as [ [ | | ] | ];
    cbn [option_map CompOpp]; congruence.
Qed.

(** A sample that is not a number meets neither test: the output is the
    previous output, whatever threshold and hysteresis are. *)
Theorem compare_nan_sample sample threshold hysteresis prevOut :
  Num.isnan sample = true ->
  compare sample threshold hysteresis prevOut
  = Some (Num.to_int (Num.lrint prevOut)).
Proof.
  intros H. rewrite ThresholdCompareProps.compare_cases.
  destruct (nan_le sample (threshold + hysteresis) H) as [_ Hge].
  destruct (nan_le sample (threshold - hysteresis) H) as [Hle _].
  rewrite Hge, Hle. reflexivity.
Qed.

Lemma compare_nan_sample_witness :
  Num.isnan PrimFloat.nan = true
  /\ compare PrimFloat.nan 2.0 0.5 1.0 = Some 1%Z.
Proof.
  split; [ reflexivity | ].
  exact (compare_nan_sample PrimFloat.nan 2.0 0.5 1.0 eq_refl).
Defined.

(** With a previous output of 0.0 or 1.0 the output is 0 or 1, and it is
    stable: the same sample with the output fed back as previous output
    gives the same output again. *)
Theorem compare_binary_stable sample threshold hysteresis (prev : bool) :
  exists out : bool,
    compare sample threshold hysteresis (if prev then 1.0 else 0.0)
    = Some (if out then 1%Z else 0%Z)
    /\ compare sample threshold hysteresis (if out then 1.0 else 0.0)
       = Some (if out then 1%Z else 0%Z).
Proof.
  rewrite !ThresholdCompareProps.compare_cases.
  destruct (Num.ge sample (threshold + hysteresis)) eqn:E1.
  - exists true. rewrite ThresholdCompareProps.compare_cases, E1.
    split; reflexivity.
  - destruct (Num.le sample (threshold - hysteresis)) eqn:E2.
    + exists false. rewrite ThresholdCompareProps.compare_cases, E1, E2.
      split; reflexivity.
    + exists prev. rewrite ThresholdCompareProps.compare_cases, E1, E2.
      destruct prev; split; reflexivity.
Qed.

Lemma lt_not_nan_r x y : Num.lt x y = true -> Num.isnan y = false.
Proof.
  unfold Num.lt, Num.isnan, PrimFloat.is_nan.
  rewrite ltb_spec, eqb_spec. unfold SFltb, SFeqb.
  destruct (Prim2SF y) as [sb | sb | | sb mb eb];
    destruct (Prim2SF x) as [sa | sa | | sa ma ea];
    cbn [SFcompare]; try discriminate; try reflexivity;
    try (destruct sb; reflexivity).
  all: intros _; destruct sb; rewrite Z.compare_refl;
    change (Pos.compare_cont Eq mb mb) with (Pos.compare mb mb);
    rewrite Pos.compare_refl; reflexivity.
Qed.

(** A clamped sample is neither below -10.0 nor above 10.0. *)
Lemma clamped_bounds v :
  Num.lt (Spec.clamped v) Lit.dm10 = false
  /\ Num.gt (Spec.clamped v) Lit.d10 = false.
Proof.
  assert (N10 : Num.isnan Lit.d10 = false) by reflexivity.
  assert (Nm10 : Num.isnan Lit.dm10 = false) by reflexivity.
  unfold Spec.clamped.
  destruct (Num.lt v Lit.dm10) eqn:E1; cbn [orb].
  - pose proof (FloatFacts.lt_not_nan _ _ E1) as Nv.
    unfold Num.fmin. rewrite N10, Nv.
    destruct (Num.lt v Lit.d10).
    + unfold Num.fmax. rewrite Nm10, Nv, (lt_asym _ _ E1).
      split; reflexivity.
    + split; reflexivity.
  - destruct (Num.gt v Lit.d10) eqn:E2.
    + unfold Num.gt in E2.
      pose proof (lt_not_nan_r _ _ E2) as Nv.
      unfold Num.fmin. rewrite N10, Nv, (lt_asym _ _ E2).
      split; reflexivity.
    + split; assumption.
Qed.

End ThresholdCompareMore.

(** * Further properties of the controller *)

Module ControllerMore.

Import asynPortDriver.
Import ThresholdLogicController.
Import Samples.
Import Spec.
Import Invariants.
Local Open Scope string_scope.
Local Open Scope Z_scope.

Lemma asynStatus_eqb_neq a b : a <> b -> asynStatus_eqb a b = false.
Proof.
  destruct a, b; intros H; try reflexivity; exfalso; apply H; reflexivity.
Qed.

Lemma asynStatus_eqb_refl a : asynStatus_eqb a a = true.
Proof. destruct a; reflexivity. Qed.

(** *** The monitor cycle *)

Lemma processThresholdLogic_currentValue io o g :
  enabled_ o = true ->
  readConnect io = asynSuccess ->
  currentValue_ (fst (processThresholdLogic io o g))
  = clamped (readValue io)
  /\ doubleParam (params (fst (processThresholdLogic io o g))) P_CurrentValue
     = clamped (readValue io).
Proof.
  intros He Hr. unfold processThresholdLogic. rewrite He.
  rewrite ControllerProps.readCurrentValueFromDevice_ok by exact Hr.
  cbn [negb asynStatus_eqb].
  rewrite ControllerProps.writeOutputStateToDevice_status.
  set (o1 := set_currentValue_ o (clamped (readValue io))).
  destruct (Bool.eqb (newOutputState o1) (outputState_ o1)); cbn [negb];
    unfold ErrorHandler.bind.
  - destruct (alarmStatus_ o1 =? 0); split; reflexivity.
  - destruct (asynStatus_eqb (writeConnect io) asynSuccess); cbn [negb];
      split; reflexivity.
Qed.

(** After a cycle whose read succeeds, the current value, in the member and
    in the CurrentValue parameter, is the reading clamped: it is neither
    below -10.0 nor above 10.0. *)
Theorem processThresholdLogic_value_clamped io o g :
  enabled_ o = true ->
  readConnect io = asynSuccess ->
  let o' := fst (processThresholdLogic io o g) in
  currentValue_ o' = clamped (readValue io)
  /\ doubleParam (params o') P_CurrentValue = currentValue_ o'
  /\ Num.lt (currentValue_ o') Lit.dm10 = false
  /\ Num.gt (currentValue_ o') Lit.d10 = false.
Proof.
  intros He Hr o'.
  destruct (processThresholdLogic_currentValue io o g He Hr) as [H1 H2].
  fold o' in H1, H2. rewrite H2, H1.
  destruct (ThresholdCompareMore.clamped_bounds (readValue io)) as [B1 B2].
  repeat split; assumption.
Qed.

Lemma processThresholdLogic_value_clamped_witness :
  enabled_ running = true
  /\ readConnect (answers 12.5%float) = asynSuccess
  /\ currentValue_ (fst (processThresholdLogic (answers 12.5%float) running g0))
     = 10%float.
Proof.
  split; [ reflexivity | split; [ reflexivity | ] ].
  rewrite (proj1 (processThresholdLogic_value_clamped (answers 12.5%float)
                    running g0 eq_refl eq_refl)).
  reflexivity.
Defined.

(** A cycle whose read fails takes no decision: output, previous output,
    current value and time stamp stay; the alarm status becomes 2 with
    MAJOR severity on the parameters, and three lines at ERROR are
    written, the communication error and the COMM_ALARM twice. *)
Theorem processThresholdLogic_read_failure io o g :
  enabled_ o = true ->
  readConnect io <> asynSuccess ->
  let r := processThresholdLogic io o g in
  outputState_ (fst r) = outputState_ o
  /\ lastOutputState_ (fst r) = lastOutputState_ o
  /\ currentValue_ (fst r) = currentValue_ o
  /\ lastUpdate_ (fst r) = lastUpdate_ o
  /\ alarmStatus_ (fst r) = 2
  /\ paramAlarmSeverity (params (fst r)) P_CurrentValue = 2
  /\ paramAlarmSeverity (params (fst r)) P_OutputState = 2
  /\ ErrorHandler.errorCount_ (snd r)
     = Num.incr (Num.incr (Num.incr (ErrorHandler.errorCount_ g)))
  /\ ErrorHandler.console (snd r)
     = ErrorHandler.mkLogLine ErrorHandler.ERROR
         "ErrorHandler::setAlarmStatus"
         (ErrorHandler.AlarmSet ErrorHandler.COMM_ALARM
                                ErrorHandler.MAJOR_ALARM)
       :: ErrorHandler.mkLogLine ErrorHandler.ERROR
            "ErrorHandler::setAlarmStatus"
            (ErrorHandler.AlarmSet ErrorHandler.COMM_ALARM
                                   ErrorHandler.MAJOR_ALARM)
       :: ErrorHandler.mkLogLine ErrorHandler.ERROR "processThresholdLogic"
            (ErrorHandler.CommunicationError (devicePortName_ o)
               (deviceAddr_ o) "현재값 읽기")
       :: ErrorHandler.console g.
Proof.
  intros He Hr r. unfold r, processThresholdLogic. rewrite He.
  pose proof (asynStatus_eqb_neq _ _ Hr) as Hc.
  rewrite ControllerProps.readCurrentValueFromDevice_failed by exact Hc.
  rewrite Hc. cbn [negb]. unfold ErrorHandler.bind.
  repeat split; reflexivity.
Qed.

Lemma processThresholdLogic_read_failure_witness :
  enabled_ running = true
  /\ readConnect (mkDeviceIO asynTimeout 2.5%float asynSuccess 1)
     <> asynSuccess
  /\ alarmStatus_
       (fst (processThresholdLogic
               (mkDeviceIO asynTimeout 2.5%float asynSuccess 1) running g0))
     = 2.
Proof.
  split; [ reflexivity | split; [ discriminate | ] ].
  assert (H : readConnect (mkDeviceIO asynTimeout 2.5%float asynSuccess 1)
              <> asynSuccess) by discriminate.
  pose proof (processThresholdLogic_read_failure
                (mkDeviceIO asynTimeout 2.5%float asynSuccess 1) running g0
                eq_refl H) as K.
  cbn zeta in K. exact (proj1 (proj2 (proj2 (proj2 (proj2 K))))).
Defined.

(** After a cycle of an enabled controller the alarm status is 0 or 2: it
    is 0 when the read succeeded and the output either stayed or was
    written, 2 otherwise, whatever it was before; the severity on the
    OutputState parameter is the same number. *)
Theorem processThresholdLogic_alarm io o g :
  enabled_ o = true ->
  let o1 := snd (readCurrentValueFromDevice io o) in
  let o' := fst (processThresholdLogic io o g) in
  alarmStatus_ o'
  = (if asynStatus_eqb (readConnect io) asynSuccess
        && (Bool.eqb (newOutputState o1) (outputState_ o)
            || asynStatus_eqb (writeConnect io) asynSuccess)
     then 0 else 2)
  /\ paramAlarmSeverity (params o') P_OutputState = alarmStatus_ o'
  /\ integerParam (params o') P_AlarmStatus = alarmStatus_ o'.
Proof.
  intros He o1 o'. unfold o', o1, processThresholdLogic. rewrite He.
  cbn [negb].
  destruct (asynStatus_eqb (readConnect io) asynSuccess) eqn:Hc.
  - rewrite ControllerProps.readCurrentValueFromDevice_ok
      by (apply ControllerProps.asynStatus_eqb_eq, Hc).
    cbn [negb asynStatus_eqb snd andb].
    rewrite ControllerProps.writeOutputStateToDevice_status.
    set (o2 := set_currentValue_ o (clamped (readValue io))).
    change (outputState_ o) with (outputState_ o2).
    destruct (Bool.eqb (newOutputState o2) (outputState_ o2)); cbn [negb orb];
      unfold ErrorHandler.bind.
    + destruct (alarmStatus_ o2 =? 0) eqn:Ea.
      * apply Z.eqb_eq in Ea.
        assert (E : alarmStatus_ o = 0) by exact Ea.
        cbn. rewrite E. repeat split; reflexivity.
      * repeat split; reflexivity.
    + destruct (asynStatus_eqb (writeConnect io) asynSuccess); cbn [negb];
        repeat split; reflexivity.
  - rewrite ControllerProps.readCurrentValueFromDevice_failed by exact Hc.
    rewrite Hc. cbn [negb andb]. unfold ErrorHandler.bind.
    repeat split; reflexivity.
Qed.

Lemma processThresholdLogic_alarm_witness :
  enabled_ running = true
  /\ alarmStatus_ (fst (processThresholdLogic (refusesWrite 2.5%float)
                          running g0)) = 2
  /\ alarmStatus_ (fst (processThresholdLogic (answers 2.5%float)
                          running g0)) = 0.
Proof.
  split; [ reflexivity | split ].
  - rewrite (proj1 (processThresholdLogic_alarm (refusesWrite 2.5%float)
                      running g0 eq_refl)).
    reflexivity.
  - rewrite (proj1 (processThresholdLogic_alarm (answers 2.5%float)
                      running g0 eq_refl)).
    reflexivity.
Defined.

(** *** The parameter library and the members *)

Ltac mirror_open :=
  match goal with
  | H : mirrored ?o |- _ =>
      destruct o as [pn pu [ip dp sp pas pav] mt tr te th cv os en hy ur al
                       dpn da lu lo];
      unfold mirrored in H;
      cbn [params thresholdValue_ currentValue_ outputState_ enabled_
           hysteresis_ updateRate_ alarmStatus_ deviceAddr_ integerParam
           doubleParam] in H;
      destruct H as (H1 & H2 & H3 & H4 & H5 & H6 & H7 & H8)
  end.

Ltac mirror_close :=
  unfold mirrored; cbn; repeat split; assumption || reflexivity.

Lemma mirrored_validateParameters o :
  mirrored o -> mirrored (snd (validateParameters o)).
Proof.
  intros H. mirror_open. unfold validateParameters.
  cbn [snd alarmStatus_].
  destruct ((al <? 0) || (al >? 3))%bool; mirror_close.
Qed.

Lemma mirrored_stopMonitoring o : mirrored o -> mirrored (stopMonitoring o).
Proof.
  intros H. mirror_open. unfold stopMonitoring.
  destruct tr, mt; mirror_close.
Qed.

Lemma mirrored_startMonitoring spawn o g :
  mirrored o -> mirrored (fst (startMonitoring spawn o g)).
Proof.
  intros H. mirror_open. unfold startMonitoring.
  destruct tr; [ mirror_close | ].
  cbn [threadRunning_ updateRate_ set_threadExit_].
  destruct (Num.lt ur Lit.d0_1 || Num.gt ur Lit.d1000)%bool;
    destruct spawn as [ | what ];
    unfold ErrorHandler.bind, ErrorHandler.handleThreadError;
    try mirror_close;
    destruct (ErrorHandler.strstr what "FATAL"
              || ErrorHandler.strstr what "SEGFAULT")%bool;
    mirror_close.
Qed.

Lemma mirrored_writeFloat64 pasynUser value o g :
  mirrored o -> mirrored (snd (fst (writeFloat64 pasynUser value o g))).
Proof.
  intros H. unfold writeFloat64. cbv zeta.
  destruct (reason pasynUser =? P_ThresholdValue) eqn:E0.
  { apply Z.eqb_eq in E0. rewrite E0. unfold ErrorHandler.bind at 1.
    destruct (ErrorHandler.validateParameter _ _ _ _ _ g) as [ok g1].
    destruct ok; cbn [negb]; unfold ErrorHandler.bind;
      [ destruct (Num.lt (Num.fabs value) (hysteresis_ o)) | ];
      mirror_open; mirror_close. }
  destruct (reason pasynUser =? P_Hysteresis) eqn:E1.
  { apply Z.eqb_eq in E1. rewrite E1. unfold ErrorHandler.bind at 1.
    destruct (ErrorHandler.validateParameter _ _ _ _ _ g) as [ok g1].
    destruct ok; cbn [negb]; unfold ErrorHandler.bind;
      mirror_open; mirror_close. }
  destruct (reason pasynUser =? P_UpdateRate) eqn:E2.
  { apply Z.eqb_eq in E2. rewrite E2. unfold ErrorHandler.bind at 1.
    destruct (ErrorHandler.validateParameter _ _ _ _ _ g) as [ok g1].
    destruct ok; cbn [negb]; unfold ErrorHandler.bind;
      mirror_open; mirror_close. }
  destruct (reason pasynUser =? P_CurrentValue) eqn:E3.
  { mirror_open. mirror_close. }
  unfold setDoubleParam, asynPortDriver.setDoubleParam, paramType.
  rewrite E0, E1, E2, E3.
  repeat match goal with
         | |- context [if ?c then _ else _] => destruct c
         end;
    mirror_open; mirror_close.
Qed.

Lemma mirrored_writeInt32_Enable value spawn o g :
  mirrored o ->
  mirrored (snd (fst (writeInt32 (mkAsynUser P_Enable) value spawn o g))).
Proof.
  intros H.
  assert (K : forall v, v = 0 \/ v = 1 ->
              mirrored (snd (fst (writeInt32 (mkAsynUser P_Enable) v spawn o
                                    g)))).
  { intros v Hv. unfold writeInt32.
    cbn [reason Z.eqb P_Enable Pos.eqb].
    assert (Hc : (if negb (v =? 0) && negb (v =? 1)
                  then if negb (v =? 0) then 1 else 0 else v) = v)
      by (destruct Hv; subst v; reflexivity).
    cbv zeta. rewrite Hc.
    destruct (Bool.eqb (negb (v =? 0)) (enabled_ o)) eqn:Ee; cbn [negb].
    - apply Bool.eqb_prop in Ee.
      destruct Hv; subst v; cbn [Z.eqb negb] in Ee;
        mirror_open; cbn [enabled_] in Ee; subst en; mirror_close.
    - destruct Hv; subst v; cbn [Z.eqb negb].
      + unfold ErrorHandler.bind.
        cbn [setIntegerParam enabled_ set_enabled_ set_params fst snd
             asynPortDriver.setIntegerParam paramType P_Enable
             P_ThresholdValue P_CurrentValue P_OutputState P_CompareResult
             Z.eqb Pos.eqb params].
        apply mirrored_stopMonitoring. mirror_open. mirror_close.
      + pose proof (mirrored_validateParameters o H) as Hv.
        destruct (validateParameters o) as [ok o1]. cbn [snd] in Hv.
        destruct ok; cbn [negb]; [ | exact Hv ].
        destruct (Nat.eqb (String.length (devicePortName_ o1)) 0);
          [ exact Hv | ].
        unfold ErrorHandler.bind.
        cbn [setIntegerParam enabled_ set_enabled_ set_params fst snd
             asynPortDriver.setIntegerParam paramType P_Enable
             P_ThresholdValue P_CurrentValue P_OutputState P_CompareResult
             Z.eqb Pos.eqb params].
        match goal with
        | |- mirrored (snd (fst (let (o2, g2) := startMonitoring ?s ?o2' ?g' in _))) =>
            pose proof (mirrored_startMonitoring s o2' g') as Hs;
            destruct (startMonitoring s o2' g') as [o3 g3]
        end.
        cbn [fst snd] in *. apply Hs. clear Hs H.
        rename Hv into H. mirror_open. mirror_close. }
  destruct (Z.eq_dec value 0) as [ E | E ].
  - apply K. left. exact E.
  - rewrite ControllerProps.writeInt32_Enable_nonzero
      by (reflexivity || exact E).
    apply K. right. reflexivity.
Qed.

Lemma mirrored_writeInt32 pasynUser value spawn o g :
  mirrored o -> mirrored (snd (fst (writeInt32 pasynUser value spawn o g))).
Proof.
  intros H.
  destruct (reason pasynUser =? P_Enable) eqn:E0.
  { apply Z.eqb_eq in E0. destruct pasynUser as [r]. cbn [reason] in E0.
    subst r. apply mirrored_writeInt32_Enable, H. }
  unfold writeInt32. cbv zeta. rewrite E0.
  destruct (reason pasynUser =? P_OutputState) eqn:E1;
    [ exact H | ].
  destruct (reason pasynUser =? P_AlarmStatus) eqn:E2;
    [ exact H | ].
  destruct (reason pasynUser =? P_DeviceAddr) eqn:E3.
  { apply Z.eqb_eq in E3. rewrite E3.
    destruct ((value <? 0) || (value >? 255))%bool; [ exact H | ].
    destruct (enabled_ o) eqn:Een; [ exact H | ].
    mirror_open. cbn [enabled_] in Een. subst en. mirror_close. }
  unfold setIntegerParam, asynPortDriver.setIntegerParam, paramType.
  rewrite E0, E1, E2, E3.
  destruct (reason pasynUser =? P_ThresholdValue); [ exact H | ].
  destruct (reason pasynUser =? P_CurrentValue); [ exact H | ].
  destruct (reason pasynUser =? P_CompareResult) eqn:E4.
  { apply Z.eqb_eq in E4. rewrite E4. mirror_open. mirror_close. }
  repeat match goal with
         | |- context [if ?c then _ else _] => destruct c
         end;
    mirror_open; mirror_close.
Qed.

Lemma mirrored_processThresholdLogic io o g :
  mirrored o -> mirrored (fst (processThresholdLogic io o g)).
Proof.
  intros H. unfold processThresholdLogic.
  destruct (enabled_ o) eqn:He; cbn [negb]; [ | exact H ].
  destruct (asynStatus_eqb (readConnect io) asynSuccess) eqn:Hc.
  - rewrite ControllerProps.readCurrentValueFromDevice_ok
      by (apply ControllerProps.asynStatus_eqb_eq, Hc).
    cbn [negb asynStatus_eqb].
    rewrite ControllerProps.writeOutputStateToDevice_status.
    set (o1 := set_currentValue_ o (clamped (readValue io))).
    destruct (Bool.eqb (newOutputState o1) (outputState_ o1)) eqn:Eb;
      cbn [negb]; unfold ErrorHandler.bind.
    + destruct (alarmStatus_ o1 =? 0) eqn:Ea; subst o1.
      * apply Z.eqb_eq in Ea. mirror_open. cbn [alarmStatus_ set_currentValue_] in Ea.
        subst al. mirror_close.
      * mirror_open. mirror_close.
    + subst o1.
      destruct (asynStatus_eqb (writeConnect io) asynSuccess); cbn [negb];
        mirror_open;
        match goal with
        | |- context [newOutputState ?x] => destruct (newOutputState x)
        end; mirror_close.
  - rewrite ControllerProps.readCurrentValueFromDevice_failed by exact Hc.
    rewrite Hc. cbn [negb]. unfold ErrorHandler.bind.
    mirror_open. mirror_close.
Qed.

Lemma mirrored_runIteration io o g :
  mirrored o -> mirrored (fst (runIteration io o g)).
Proof.
  intros H. unfold runIteration.
  destruct (enabled_ o) eqn:He;
    [ apply mirrored_processThresholdLogic, H | ].
  destruct (asynStatus_eqb (readConnect io) asynSuccess) eqn:Hc.
  - rewrite ControllerProps.readCurrentValueFromDevice_ok
      by (apply ControllerProps.asynStatus_eqb_eq, Hc).
    cbn [asynStatus_eqb]. mirror_open. mirror_close.
  - rewrite ControllerProps.readCurrentValueFromDevice_failed by exact Hc.
    rewrite Hc. exact H.
Qed.

Lemma mirrored_run ios : forall o g,
  mirrored o -> mirrored (fst (run ios o g)).
Proof.
  induction ios as [ | io ios IH ]; intros o g H.
  - cbn [run ErrorHandler.ret fst]. mirror_open. mirror_close.
  - cbn [run]. unfold ErrorHandler.bind.
    pose proof (mirrored_runIteration io o g H) as H1.
    destruct (runIteration io o g) as [o1 g1]. apply IH, H1.
Qed.

Lemma mirrored_constructor portName devicePort deviceAddr now g :
  mirrored (fst (ThresholdLogicController portName devicePort deviceAddr now
                   g)).
Proof.
  unfold ThresholdLogicController, ErrorHandler.bind.
  destruct (validateConfigurationWithErrorHandler _ g) as [ok g1].
  destruct ok; mirror_close.
Qed.

(** The parameter library mirrors the members: the constructor leaves
    ThresholdValue, CurrentValue, OutputState, Enable, Hysteresis,
    UpdateRate, AlarmStatus and DeviceAddr equal to the members they
    publish, and every write, every cycle and every run of the monitor loop
    keeps them equal, whether the operation succeeds or is refused. *)
Theorem parameters_mirror_members o :
  mirrored o ->
  (forall pasynUser value g,
     mirrored (snd (fst (writeFloat64 pasynUser value o g))))
  /\ (forall pasynUser value spawn g,
        mirrored (snd (fst (writeInt32 pasynUser value spawn o g))))
  /\ (forall io g, mirrored (fst (processThresholdLogic io o g)))
  /\ (forall ios g, mirrored (fst (run ios o g)))
  /\ mirrored (stopMonitoring o).
Proof.
  intros H. split; [ | split; [ | split; [ | split ] ] ]; intros.
  - apply mirrored_writeFloat64, H.
  - apply mirrored_writeInt32, H.
  - apply mirrored_processThresholdLogic, H.
  - apply mirrored_run, H.
  - apply mirrored_stopMonitoring, H.
Qed.

Lemma parameters_mirror_members_witness :
  mirrored fresh
  /\ mirrored (snd (fst (writeInt32 (mkAsynUser P_Enable) 1 Started fresh g0))).
Proof.
  assert (H : mirrored fresh) by (apply mirrored_constructor).
  split; [ exact H | ].
  exact (proj1 (proj2 (parameters_mirror_members fresh H))
               (mkAsynUser P_Enable) 1 Started g0).
Defined.

(** *** Writing and reading the settings *)

Lemma setUpdateRate_accepted value o g :
  outside value Lit.d0_1 Lit.d1000 = false ->
  writeFloat64 (mkAsynUser P_UpdateRate) value o g
  = (setDoubleParam (set_updateRate_ o value) P_UpdateRate value, g).
Proof.
  intros H. unfold writeFloat64.
  cbn [reason Z.eqb P_ThresholdValue P_Hysteresis P_UpdateRate Pos.eqb].
  unfold ErrorHandler.bind at 1.
  rewrite (ErrorHandlerProps.validateParameter_inside _ _ _ _ _ _ H).
  reflexivity.
Qed.

(** A setting that is accepted is what is read back: after a write of a
    threshold inside [-10.0, 10.0], of a hysteresis inside [0.0, 5.0] or of
    an update rate inside [0.1, 1000.0], a read of the same parameter
    answers that value, and the parameter library holds it. *)
Theorem write_then_read value (old : float) o g :
  (outside value Lit.dm10 Lit.d10 = false ->
   let o' := snd (fst (writeFloat64 (mkAsynUser P_ThresholdValue) value o g))
   in readFloat64 (mkAsynUser P_ThresholdValue) (Some old) o'
      = (asynSuccess, Some value)
      /\ doubleParam (params o') P_ThresholdValue = value)
  /\ (outside value Lit.d0 Lit.d5 = false ->
      let o' := snd (fst (writeFloat64 (mkAsynUser P_Hysteresis) value o g))
      in readFloat64 (mkAsynUser P_Hysteresis) (Some old) o'
         = (asynSuccess, Some value)
         /\ doubleParam (params o') P_Hysteresis = value)
  /\ (outside value Lit.d0_1 Lit.d1000 = false ->
      let o' := snd (fst (writeFloat64 (mkAsynUser P_UpdateRate) value o g))
      in readFloat64 (mkAsynUser P_UpdateRate) (Some old) o'
         = (asynSuccess, Some value)
         /\ doubleParam (params o') P_UpdateRate = value).
Proof.
  split; [ | split ]; intros H.
  - destruct (ControllerProps.setThreshold_accepted value o g H) as [g' E].
    rewrite E. split; reflexivity.
  - rewrite (ControllerProps.setHysteresis_accepted value o g H).
    split; reflexivity.
  - rewrite (setUpdateRate_accepted value o g H). split; reflexivity.
Qed.

Lemma write_then_read_witness :
  outside 3.5%float Lit.dm10 Lit.d10 = false
  /\ readFloat64 (mkAsynUser P_ThresholdValue) (Some Lit.d0)
       (snd (fst (writeFloat64 (mkAsynUser P_ThresholdValue) 3.5%float fresh
                    g0)))
     = (asynSuccess, Some 3.5%float).
Proof.
  split; [ reflexivity | ].
  exact (proj1 (proj1 (write_then_read 3.5%float Lit.d0 fresh g0) eq_refl)).
Defined.

(** A write of the device address is accepted exactly when the value is
    in 0..255 and the controller is disabled; then the address is stored
    and read back; otherwise the answer is asynError and the object is as
    it was.  Nothing is logged either way. *)
Theorem setDeviceAddress value (old : Z) spawn o g :
  let r := writeInt32 (mkAsynUser P_DeviceAddr) value spawn o g in
  snd r = g
  /\ if (0 <=? value) && (value <=? 255) && negb (enabled_ o)
     then fst (fst r) = asynSuccess
          /\ deviceAddr_ (snd (fst r)) = value
          /\ readInt32 (mkAsynUser P_DeviceAddr) (Some old) (snd (fst r))
             = (asynSuccess, Some value)
     else fst r = (asynError, o).
Proof.
  unfold writeInt32.
  cbn [reason Z.eqb P_Enable P_OutputState P_AlarmStatus P_DeviceAddr
       Pos.eqb].
  destruct (value <? 0) eqn:E1.
  { apply Z.ltb_lt in E1.
    assert (E : (0 <=? value) = false) by (apply Z.leb_gt; lia).
    rewrite E. split; reflexivity. }
  apply Z.ltb_ge in E1. apply Z.leb_le in E1. rewrite E1. cbn [orb andb].
  destruct (value >? 255) eqn:E2.
  { assert (E : (value <=? 255) = false) by (apply Z.leb_gt; lia).
    rewrite E. split; reflexivity. }
  assert (E : (value <=? 255) = true) by (apply Z.leb_le; lia).
  rewrite E. cbn [andb].
  destruct (enabled_ o); cbn [negb]; [ split; reflexivity | ].
  repeat split; reflexivity.
Qed.

(** *** Enabling and disabling *)

Ltac all_branches :=
  repeat match goal with
         | |- context [if ?c then _ else _] => destruct c
         end.

Lemma validateParameters_true o :
  fst (validateParameters o) = true -> validated o.
Proof.
  unfold validateParameters, validated. cbn [fst].
  destruct (Num.lt (thresholdValue_ o) Lit.dm10
            || Num.gt (thresholdValue_ o) Lit.d10)%bool;
    [ all_branches; intros H; discriminate H | ].
  destruct (Num.lt (hysteresis_ o) Lit.d0
            || Num.gt (hysteresis_ o) Lit.d5)%bool;
    [ all_branches; intros H; discriminate H | ].
  destruct (Num.lt (updateRate_ o) Lit.d0_1
            || Num.gt (updateRate_ o) Lit.d1000)%bool;
    [ all_branches; intros H; discriminate H | ].
  destruct (devicePortName_ o) as [ | ch rest ] eqn:Ep;
    [ cbn [String.length Nat.eqb]; all_branches; intros H; discriminate H | ].
  destruct ((deviceAddr_ o <? 0) || (deviceAddr_ o >? 255))%bool eqn:Ea;
    [ all_branches; intros H; discriminate H | ].
  intros _. apply Bool.orb_false_iff in Ea. destruct Ea as [Ea1 Ea2].
  repeat split; try discriminate; lia.
Qed.

Lemma validateParameters_snd o :
  snd (validateParameters o)
  = (if (alarmStatus_ o <? 0) || (alarmStatus_ o >? 3)
     then snd (setIntegerParam (set_alarmStatus_ o 0) P_AlarmStatus 0)
     else o).
Proof. reflexivity. Qed.

(** What the Enable branch does once [validateParameters] has passed. *)
Lemma writeInt32_Enable_passed value spawn o g :
  enabled_ o = false ->
  value <> 0 ->
  fst (validateParameters o) = true ->
  writeInt32 (mkAsynUser P_Enable) value spawn o g
  = (let o1 := snd (validateParameters o) in
     let o2 := snd (setIntegerParam (set_enabled_ o1 true) P_Enable 1) in
     (asynSuccess, fst (startMonitoring spawn o2 g),
      snd (startMonitoring spawn o2 g))).
Proof.
  intros He Hv Hok.
  rewrite ControllerProps.writeInt32_Enable_nonzero
    by (reflexivity || exact Hv).
  assert (Hp : Nat.eqb (String.length
                          (devicePortName_ (snd (validateParameters o)))) 0
               = false).
  { destruct (validateParameters_true o Hok) as (_ & _ & _ & V4 & _).
    destruct (ControllerProps.validateParameters_frame o)
      as (_ & _ & _ & _ & Hd & _).
    rewrite Hd. destruct (devicePortName_ o);
      [ exfalso; apply V4; reflexivity | reflexivity ]. }
  unfold writeInt32.
  cbn [reason Z.eqb P_Enable Pos.eqb negb andb]. cbv zeta.
  rewrite He. cbn [Bool.eqb negb].
  destruct (validateParameters o) as [ok o1]. cbn [fst snd] in *.
  subst ok. cbn [negb]. rewrite Hp.
  unfold ErrorHandler.bind.
  cbn [setIntegerParam enabled_ set_enabled_ set_params fst snd
       asynPortDriver.setIntegerParam paramType P_Enable P_ThresholdValue
       P_CurrentValue P_OutputState P_CompareResult Z.eqb Pos.eqb].
  destruct (startMonitoring spawn _ g) as [o3 g3]. reflexivity.
Qed.

(** An infinite value is below the lower or above the upper bound, so a
    value that meets neither test is outside its range only as a NaN. *)
Lemma outside_only_nan x lo hi :
  PrimFloat.ltb PrimFloat.neg_infinity lo = true ->
  PrimFloat.ltb hi PrimFloat.infinity = true ->
  (Num.lt x lo || Num.gt x hi)%bool = false ->
  outside x lo hi = Num.isnan x.
Proof.
  intros Hlo Hhi H. apply Bool.orb_false_iff in H. destruct H as [Hl Hg].
  unfold outside. rewrite Hl, Hg, !Bool.orb_false_r.
  destruct (Num.isnan x) eqn:En; [ reflexivity | ].
  cbn [orb]. destruct (Num.isinf x) eqn:Ei; [ exfalso | reflexivity ].
  unfold Num.isinf, PrimFloat.is_infinity in Ei.
  unfold Num.lt in Hl. unfold Num.gt in Hg.
  rewrite eqb_spec, abs_spec in Ei.
  rewrite ltb_spec in Hlo, Hhi, Hl, Hg.
  change (Prim2SF PrimFloat.infinity) with (S754_infinity false) in *.
  change (Prim2SF PrimFloat.neg_infinity) with (S754_infinity true) in *.
  destruct (Prim2SF x) as [sx | sx | | sx mx ex]; try discriminate Ei.
  destruct sx.
  - rewrite Hlo in Hl. discriminate Hl.
  - rewrite Hhi in Hg. discriminate Hg.
Qed.

(** An enable that passes [validateParameters] and whose thread starts:
    the answer is asynSuccess, the controller is enabled with its thread
    running under the name ThresholdMonitor_ followed by the port name; no
    setting is below its lower or above its upper bound, so that a
    threshold, a hysteresis or an update rate is outside its range only if
    it is a NaN, which [validateParameters] does not test for; the device
    port is named and the address is in 0..255; nothing is logged. *)
Theorem setEnabled_accepted value o g :
  enabled_ o = false ->
  threadRunning_ o = false ->
  value <> 0 ->
  fst (validateParameters o) = true ->
  let r := writeInt32 (mkAsynUser P_Enable) value Started o g in
  let o' := snd (fst r) in
  fst (fst r) = asynSuccess
  /\ enabled_ o' = true
  /\ threadRunning_ o' = true
  /\ monitorThread_ o'
     = Some (String.substring 0 63 ("ThresholdMonitor_" ++ portName o))
  /\ validated o'
  /\ outside (thresholdValue_ o') Lit.dm10 Lit.d10
     = Num.isnan (thresholdValue_ o')
  /\ outside (hysteresis_ o') Lit.d0 Lit.d5 = Num.isnan (hysteresis_ o')
  /\ outside (updateRate_ o') Lit.d0_1 Lit.d1000 = Num.isnan (updateRate_ o')
  /\ snd r = g.
Proof.
  intros He Ht Hv Hok r o'. unfold o', r.
  rewrite (writeInt32_Enable_passed value Started o g He Hv Hok).
  pose proof (validateParameters_true o Hok) as (V1 & V2 & V3 & V4 & V5).
  pose proof (outside_only_nan (thresholdValue_ o) Lit.dm10 Lit.d10
                eq_refl eq_refl V1) as N1.
  pose proof (outside_only_nan (hysteresis_ o) Lit.d0 Lit.d5
                eq_refl eq_refl V2) as N2.
  pose proof (outside_only_nan (updateRate_ o) Lit.d0_1 Lit.d1000
                eq_refl eq_refl V3) as N3.
  rewrite validateParameters_snd. cbv zeta.
  unfold startMonitoring, validated.
  destruct ((alarmStatus_ o <? 0) || (alarmStatus_ o >? 3))%bool;
    cbn [setIntegerParam enabled_ set_enabled_ set_params fst snd
         asynPortDriver.setIntegerParam paramType P_Enable P_AlarmStatus
         P_Hysteresis P_UpdateRate P_ThresholdValue P_CurrentValue
         P_OutputState P_CompareResult Z.eqb Pos.eqb threadRunning_ params
         set_alarmStatus_ updateRate_ set_threadExit_];
    rewrite Ht, V3; cbn [ErrorHandler.ret fst snd];
    (repeat split; try reflexivity; try assumption;
     try exact (proj1 V5); try exact (proj2 V5)).
Qed.

Lemma setEnabled_accepted_witness :
  enabled_ configured = false
  /\ threadRunning_ configured = false
  /\ fst (validateParameters configured) = true
  /\ threadRunning_
       (snd (fst (writeInt32 (mkAsynUser P_Enable) 1 Started configured g0)))
     = true.
Proof.
  repeat (split; [ reflexivity | ]).
  assert (H1 : 1 <> 0) by discriminate.
  pose proof (setEnabled_accepted 1 configured g0 eq_refl eq_refl H1 eq_refl)
    as K.
  cbn zeta in K. exact (proj1 (proj2 (proj2 K))).
Defined.

(** An enable that passes [validateParameters] but whose thread cannot be
    created is still answered with asynSuccess and leaves the controller
    enabled, with no thread: [threadRunning_] is false and
    [monitorThread_] is NULL.  The failure is logged at ERROR as a thread
    error carrying the exception's text. *)
Theorem setEnabled_thread_failure value what o g :
  enabled_ o = false ->
  threadRunning_ o = false ->
  value <> 0 ->
  fst (validateParameters o) = true ->
  let r := writeInt32 (mkAsynUser P_Enable) value (Threw what) o g in
  fst (fst r) = asynSuccess
  /\ enabled_ (snd (fst r)) = true
  /\ threadRunning_ (snd (fst r)) = false
  /\ monitorThread_ (snd (fst r)) = None
  /\ In (ErrorHandler.mkLogLine ErrorHandler.ERROR "startMonitoring"
           (ErrorHandler.ThreadError
              (String.substring 0 63 ("ThresholdMonitor_" ++ portName o))
              what))
        (ErrorHandler.console (snd r)).
Proof.
  intros He Ht Hv Hok r. unfold r.
  rewrite (writeInt32_Enable_passed value (Threw what) o g He Hv Hok).
  pose proof (validateParameters_true o Hok) as (V1 & V2 & V3 & V4 & V5).
  rewrite validateParameters_snd. cbv zeta.
  unfold startMonitoring, ErrorHandler.handleThreadError, ErrorHandler.bind.
  destruct ((alarmStatus_ o <? 0) || (alarmStatus_ o >? 3))%bool;
    cbn [setIntegerParam enabled_ set_enabled_ set_params fst snd
         asynPortDriver.setIntegerParam paramType P_Enable P_AlarmStatus
         P_Hysteresis P_UpdateRate P_ThresholdValue P_CurrentValue
         P_OutputState P_CompareResult Z.eqb Pos.eqb threadRunning_ params
         set_alarmStatus_ updateRate_ set_threadExit_ portName];
    rewrite Ht, V3;
    destruct (ErrorHandler.strstr what "FATAL"
              || ErrorHandler.strstr what "SEGFAULT")%bool;
    (repeat split; try reflexivity);
    unfold ErrorHandler.logError, ErrorHandler.internalLog, ErrorHandler.ret;
    first [ left; reflexivity | right; left; reflexivity ].
Qed.

Lemma setEnabled_thread_failure_witness :
  enabled_ configured = false
  /\ threadRunning_ configured = false
  /\ fst (validateParameters configured) = true
  /\ enabled_
       (snd (fst (writeInt32 (mkAsynUser P_Enable) 1 (Threw "no memory")
                    configured g0))) = true
  /\ threadRunning_
       (snd (fst (writeInt32 (mkAsynUser P_Enable) 1 (Threw "no memory")
                    configured g0))) = false.
Proof.
  do 3 (split; [ reflexivity | ]).
  assert (H1 : 1 <> 0) by discriminate.
  pose proof (setEnabled_thread_failure 1 "no memory" configured g0
                eq_refl eq_refl H1 eq_refl) as K.
  cbn zeta in K.
  split; [ exact (proj1 (proj2 K)) | exact (proj1 (proj2 (proj2 K))) ].
Defined.

(** A write of 0 to Enable of an enabled controller is answered with
    asynSuccess and leaves it disabled and stopped: [threadRunning_] and
    [threadExit_] are false, and the thread object of a running thread is
    gone; the settings and the output are untouched and nothing is
    logged. *)
Theorem setEnabled_false_stops spawn o g :
  enabled_ o = true ->
  let r := writeInt32 (mkAsynUser P_Enable) 0 spawn o g in
  fst (fst r) = asynSuccess
  /\ enabled_ (snd (fst r)) = false
  /\ threadRunning_ (snd (fst r)) = false
  /\ (threadRunning_ o = true ->
      monitorThread_ (snd (fst r)) = None
      /\ threadExit_ (snd (fst r)) = false)
  /\ thresholdValue_ (snd (fst r)) = thresholdValue_ o
  /\ hysteresis_ (snd (fst r)) = hysteresis_ o
  /\ outputState_ (snd (fst r)) = outputState_ o
  /\ snd r = g.
Proof.
  intros He r. unfold r.
  destruct o as [pn pu pl mt tr te th cv os en hy ur al dpn da lu lo].
  cbn [enabled_] in He. subst en.
  unfold writeInt32, stopMonitoring, ErrorHandler.bind.
  destruct tr, mt; repeat split; try reflexivity; discriminate.
Qed.

Lemma setEnabled_false_stops_witness :
  enabled_ running = true
  /\ threadRunning_
       (snd (fst (writeInt32 (mkAsynUser P_Enable) 0 Started running g0)))
     = false.
Proof.
  split; [ reflexivity | ].
  pose proof (setEnabled_false_stops Started running g0 eq_refl) as K.
  cbn zeta in K. exact (proj1 (proj2 (proj2 K))).
Defined.

(** [stopMonitoring] on a controller whose thread does not run changes
    nothing; in every case it ends with [threadRunning_] false, and a
    second stop changes nothing more. *)
Theorem stopMonitoring_idempotent o :
  threadRunning_ (stopMonitoring o) = false
  /\ stopMonitoring (stopMonitoring o) = stopMonitoring o
  /\ (if threadRunning_ o
      then monitorThread_ (stopMonitoring o) = None
           /\ threadExit_ (stopMonitoring o) = false
      else stopMonitoring o = o).
Proof.
  destruct o as [pn pu pl mt tr te th cv os en hy ur al dpn da lu lo].
  unfold stopMonitoring. destruct tr, mt; repeat split; reflexivity.
Qed.

(** [startMonitoring] on a controller whose thread runs already changes
    nothing and logs nothing.  Otherwise it clears [threadExit_] and
    leaves an update rate that is neither below 0.1 nor above 1000.0: a
    rate outside is replaced by 10.0, in the member and in the parameter,
    any other is kept. *)
Theorem startMonitoring_rate spawn o g :
  let o' := fst (startMonitoring spawn o g) in
  if threadRunning_ o then startMonitoring spawn o g = (o, g)
  else
    threadExit_ o' = false
    /\ updateRate_ o'
       = (if Num.lt (updateRate_ o) Lit.d0_1
             || Num.gt (updateRate_ o) Lit.d1000
          then Lit.d10 else updateRate_ o)
    /\ Num.lt (updateRate_ o') Lit.d0_1 = false
    /\ Num.gt (updateRate_ o') Lit.d1000 = false
    /\ doubleParam (params o') P_UpdateRate
       = (if Num.lt (updateRate_ o) Lit.d0_1
             || Num.gt (updateRate_ o) Lit.d1000
          then Lit.d10 else doubleParam (params o) P_UpdateRate).
Proof.
  destruct o as [pn pu pl mt tr te th cv os en hy ur al dpn da lu lo].
  cbv zeta. unfold startMonitoring.
  cbn [threadRunning_ updateRate_ set_threadExit_].
  destruct tr; [ reflexivity | ].
  unfold ErrorHandler.bind, ErrorHandler.handleThreadError.
  destruct (Num.lt ur Lit.d0_1 || Num.gt ur Lit.d1000)%bool eqn:E;
    destruct spawn as [ | what ];
    try destruct (ErrorHandler.strstr what "FATAL"
                  || ErrorHandler.strstr what "SEGFAULT")%bool;
    repeat split; try reflexivity;
    apply Bool.orb_false_iff in E; destruct E as [E1 E2]; assumption.
Qed.

(** In the disabled state a pass of the loop only refreshes the current
    value: a reading is clamped and stored, a failed read is ignored;
    output, alarm status, time stamp and enable flag stay, and nothing is
    logged or counted, even when the read fails. *)
Theorem runIteration_disabled io o g :
  enabled_ o = false ->
  let r := runIteration io o g in
  snd r = g
  /\ currentValue_ (fst r)
     = (if asynStatus_eqb (readConnect io) asynSuccess
        then clamped (readValue io) else currentValue_ o)
  /\ outputState_ (fst r) = outputState_ o
  /\ alarmStatus_ (fst r) = alarmStatus_ o
  /\ lastUpdate_ (fst r) = lastUpdate_ o
  /\ enabled_ (fst r) = false.
Proof.
  intros He r. unfold r, runIteration. rewrite He.
  destruct (asynStatus_eqb (readConnect io) asynSuccess) eqn:Hc.
  - rewrite ControllerProps.readCurrentValueFromDevice_ok
      by (apply ControllerProps.asynStatus_eqb_eq, Hc).
    cbn [asynStatus_eqb]. repeat split; try reflexivity. exact He.
  - rewrite ControllerProps.readCurrentValueFromDevice_failed by exact Hc.
    rewrite Hc. repeat split; try reflexivity. exact He.
Qed.

Lemma runIteration_disabled_witness :
  enabled_ configured = false
  /\ snd (runIteration (mkDeviceIO asynTimeout 2.5%float asynSuccess 1)
            configured g0) = g0.
Proof.
  split; [ reflexivity | ].
  pose proof (runIteration_disabled
                (mkDeviceIO asynTimeout 2.5%float asynSuccess 1) configured
                g0 eq_refl) as K.
  cbn zeta in K. exact (proj1 K).
Defined.

Lemma run_settings ios : forall o g,
  enabled_ o = true ->
  let o' := fst (run ios o g) in
  threadRunning_ o' = false
  /\ enabled_ o' = true
  /\ thresholdValue_ o' = thresholdValue_ o
  /\ hysteresis_ o' = hysteresis_ o.
Proof.
  induction ios as [ | io ios IH ]; intros o g He; cbv zeta.
  - destruct o. cbn in *. repeat split. exact He.
  - cbn [run]. unfold ErrorHandler.bind, runIteration. rewrite He.
    pose proof (ControllerProps.processThresholdLogic_settings io o g)
      as Hset.
    cbv zeta in Hset.
    destruct (processThresholdLogic io o g) as [o1 g1].
    cbn [fst] in Hset. destruct Hset as (He1 & Ht1 & Hh1).
    assert (He1' : enabled_ o1 = true) by congruence.
    pose proof (IH o1 g1 He1') as K. cbv zeta in K.
    destruct K as (K1 & K2 & K3 & K4).
    repeat split; congruence.
Qed.

(** While the controller stays enabled and every read succeeds, the output
    after any number of passes of the monitor loop is the hysteresis rule
    folded over the clamped samples, from the output it had; the loop leaves
    the enable flag, the threshold and the hysteresis as they were and ends
    with the thread marked as not running. *)
Theorem run_follows_nextState ios o g :
  enabled_ o = true ->
  Forall (fun io => readConnect io = asynSuccess) ios ->
  let o' := fst (run ios o g) in
  outputState_ o'
  = fold_left
      (fun out io =>
         nextState out (clamped (readValue io)) (thresholdValue_ o)
                   (hysteresis_ o))
      ios (outputState_ o)
  /\ threadRunning_ o' = false
  /\ enabled_ o' = true
  /\ thresholdValue_ o' = thresholdValue_ o
  /\ hysteresis_ o' = hysteresis_ o.
Proof.
  intros He Hall. cbv zeta. split.
  - apply ControllerProps.run_outputState; assumption.
  - exact (run_settings ios o g He).
Qed.

Lemma run_follows_nextState_witness :
  enabled_ running = true
  /\ Forall (fun io => readConnect io = asynSuccess)
            [answers 1%float; answers 2.5%float; answers 1.75%float;
             answers 1.25%float]
  /\ outputState_
       (fst (run [answers 1%float; answers 2.5%float; answers 1.75%float;
                  answers 1.25%float] running g0))
     = false.
Proof.
  assert (F : Forall (fun io => readConnect io = asynSuccess)
                [answers 1%float; answers 2.5%float; answers 1.75%float;
                 answers 1.25%float])
    by (repeat constructor).
  split; [ reflexivity | split; [ exact F | ] ].
  pose proof (run_follows_nextState _ running g0 eq_refl F) as K.
  cbv zeta in K. rewrite (proj1 K). reflexivity.
Defined.

Lemma fold_nextState_dead_band threshold hysteresis ios : forall out,
  Forall (fun io =>
            Num.gt (clamped (readValue io)) threshold = false
            /\ Num.lt (clamped (readValue io)) (threshold - hysteresis)
               = false) ios ->
  fold_left
    (fun out io => nextState out (clamped (readValue io)) threshold
                             hysteresis)
    ios out
  = out.
Proof.
  induction ios as [ | io ios IH ]; intros out Hall.
  - reflexivity.
  - inversion Hall as [ | ? ? [Hg Hl] Hrest ]; subst.
    cbn [fold_left]. unfold nextState at 2. rewrite Hg, Hl.
    rewrite !Bool.andb_false_r. apply IH, Hrest.
Qed.

(** No chattering inside the dead band: while the controller is enabled and
    every sample read is neither above the threshold nor below threshold
    minus hysteresis, the monitor loop leaves the output where it was, for
    any number of passes. *)
Theorem run_dead_band ios o g :
  enabled_ o = true ->
  Forall (fun io =>
            readConnect io = asynSuccess
            /\ Num.gt (clamped (readValue io)) (thresholdValue_ o) = false
            /\ Num.lt (clamped (readValue io))
                      (thresholdValue_ o - hysteresis_ o) = false) ios ->
  outputState_ (fst (run ios o g)) = outputState_ o.
Proof.
  intros He Hall.
  rewrite ControllerProps.run_outputState.
  - apply fold_nextState_dead_band.
    eapply Forall_impl; [ | exact Hall ]. cbv beta. intros io H. exact (proj2 H).
  - exact He.
  - eapply Forall_impl; [ | exact Hall ]. cbv beta. intros io H. exact (proj1 H).
Qed.

Lemma run_dead_band_witness :
  enabled_ running = true
  /\ outputState_
       (fst (run [answers 1.75%float; answers 2%float; answers 1.5%float]
                 running g0))
     = outputState_ running.
Proof.
  split; [ reflexivity | ].
  apply (run_dead_band
           [answers 1.75%float; answers 2%float; answers 1.5%float]
           running g0 eq_refl).
  repeat constructor.
Defined.

(** *** Reading *)

(** With the parameter library mirroring the members, a read through the
    driver answers what the library holds for ThresholdValue, CurrentValue,
    Hysteresis, UpdateRate, Enable, OutputState, AlarmStatus and DeviceAddr;
    a read with a NULL buffer fails with asynError. *)
Theorem reads_return_parameters o :
  mirrored o ->
  (forall index old,
     In index [P_ThresholdValue; P_CurrentValue; P_Hysteresis; P_UpdateRate]
     -> readFloat64 (mkAsynUser index) (Some old) o
        = (asynSuccess, Some (doubleParam (params o) index)))
  /\ (forall index old,
        In index [P_Enable; P_OutputState; P_AlarmStatus; P_DeviceAddr]
        -> readInt32 (mkAsynUser index) (Some old) o
           = (asynSuccess, Some (integerParam (params o) index)))
  /\ (forall pasynUser,
        fst (readFloat64 pasynUser None o) = asynError
        /\ fst (readInt32 pasynUser None o) = asynError).
Proof.
  intros (M1 & M2 & M3 & M4 & M5 & M6 & M7 & M8).
  split; [ | split ].
  - intros index old [H | [H | [H | [H | []]]]]; subst index;
      unfold readFloat64; cbn [reason Z.eqb P_ThresholdValue P_CurrentValue
                               P_Hysteresis P_UpdateRate Pos.eqb];
      congruence.
  - intros index old [H | [H | [H | [H | []]]]]; subst index;
      unfold readInt32; cbn [reason Z.eqb P_Enable P_OutputState
                             P_CompareResult P_AlarmStatus P_DeviceAddr
                             Pos.eqb];
      congruence.
  - intros pasynUser. split; reflexivity.
Qed.

Lemma reads_return_parameters_witness :
  mirrored running
  /\ readInt32 (mkAsynUser P_Enable) (Some 7) running
     = (asynSuccess, Some 1).
Proof.
  assert (H : mirrored running).
  { apply mirrored_writeInt32. apply mirrored_writeFloat64.
    apply mirrored_writeFloat64. apply mirrored_constructor. }
  split; [ exact H | ].
  rewrite (proj1 (proj2 (reads_return_parameters running H))
             P_Enable 7 (or_introl eq_refl)).
  reflexivity.
Defined.

(** *** Construction *)

Lemma substring_length_le m : forall s,
  (String.length (String.substring 0 m s) <= m)%nat.
Proof.
  induction m as [ | m IH ]; intros s.
  - destruct s; cbn; lia.
  - destruct s as [ | ch s ]; cbn [String.substring String.length];
      [ lia | ].
    specialize (IH s). lia.
Qed.

Lemma constructor_fields portName devicePort deviceAddr now g :
  let o := fst (ThresholdLogicController portName devicePort deviceAddr now g)
  in enabled_ o = false
     /\ outputState_ o = false
     /\ alarmStatus_ o = 0
     /\ threadRunning_ o = false
     /\ monitorThread_ o = None
     /\ thresholdValue_ o = Lit.d0
     /\ hysteresis_ o = Lit.d0_1
     /\ updateRate_ o = Lit.d10
     /\ devicePortName_ o = String.substring 0 63 devicePort
     /\ deviceAddr_ o = deviceAddr.
Proof.
  unfold ThresholdLogicController, ErrorHandler.bind.
  destruct (validateConfigurationWithErrorHandler _ g) as [ok g1].
  destruct ok; repeat split; reflexivity.
Qed.

Lemma constructed_validateParameters portName devicePort deviceAddr now g :
  fst (validateParameters
         (fst (ThresholdLogicController portName devicePort deviceAddr now g)))
  = negb (Nat.eqb (String.length devicePort) 0)
    && (0 <=? deviceAddr) && (deviceAddr <=? 255).
Proof.
  pose proof (constructor_fields portName devicePort deviceAddr now g) as F.
  cbv zeta in F.
  destruct F as (F1 & F2 & F3 & F4 & F5 & F6 & F7 & F8 & F9 & F10).
  unfold validateParameters. cbn [fst].
  rewrite F3, F6, F7, F8, F9, F10.
  cbn [Z.ltb Z.gtb Z.compare orb]. rewrite F1.
  change (Num.lt Lit.d0 Lit.dm10 || Num.gt Lit.d0 Lit.d10)%bool with false.
  change (Num.lt Lit.d0_1 Lit.d0 || Num.gt Lit.d0_1 Lit.d5)%bool with false.
  change (Num.lt Lit.d10 Lit.d0_1 || Num.gt Lit.d10 Lit.d1000)%bool
    with false.
  cbn [andb].
  assert (Ha : ((deviceAddr <? 0) || (deviceAddr >? 255))%bool
               = negb ((0 <=? deviceAddr) && (deviceAddr <=? 255))).
  { destruct (deviceAddr <? 0) eqn:E1, (deviceAddr >? 255) eqn:E2,
      (0 <=? deviceAddr) eqn:E3, (deviceAddr <=? 255) eqn:E4;
      try reflexivity; lia. }
  rewrite Ha.
  destruct devicePort as [ | ch rest ].
  - cbn [String.substring String.length Nat.eqb negb andb].
    destruct (negb _); reflexivity.
  - cbn [String.substring String.length Nat.eqb negb andb].
    pose proof (substring_length_le 62 rest) as L.
    assert (E : Nat.leb 64 (S (String.length (String.substring 0 62 rest)))
                = false) by (apply Nat.leb_gt; lia).
    rewrite E.
    destruct ((0 <=? deviceAddr) && (deviceAddr <=? 255))%bool; reflexivity.
Qed.

(** A controller as the constructor leaves it, which stores any address and
    any device port (cut to 63 characters) without refusing, can be
    enabled exactly when the device port is not empty and the address is
    in 0..255: then a write of 1 to Enable is answered with asynSuccess,
    otherwise with asynError. *)
Theorem constructed_enable portName devicePort deviceAddr now g spawn g' :
  let o := fst (ThresholdLogicController portName devicePort deviceAddr now g)
  in (String.length (devicePortName_ o) <= 63)%nat
     /\ deviceAddr_ o = deviceAddr
     /\ fst (fst (writeInt32 (mkAsynUser P_Enable) 1 spawn o g'))
        = (if negb (Nat.eqb (String.length devicePort) 0)
              && (0 <=? deviceAddr) && (deviceAddr <=? 255)
           then asynSuccess else asynError).
Proof.
  cbv zeta.
  pose proof (constructor_fields portName devicePort deviceAddr now g) as F.
  cbv zeta in F.
  destruct F as (F1 & F2 & F3 & F4 & F5 & F6 & F7 & F8 & F9 & F10).
  pose proof (constructed_validateParameters portName devicePort deviceAddr
                now g) as V.
  split; [ rewrite F9; apply substring_length_le | ].
  split; [ exact F10 | ].
  set (o := fst (ThresholdLogicController portName devicePort deviceAddr now
                   g)) in *.
  destruct (negb (Nat.eqb (String.length devicePort) 0)
            && (0 <=? deviceAddr) && (deviceAddr <=? 255))%bool.
  - assert (H1 : 1 <> 0) by discriminate.
    rewrite (writeInt32_Enable_passed 1 spawn o g' F1 H1 V). reflexivity.
  - assert (H1 : 1 <> 0) by discriminate.
    pose proof (ControllerProps.validateParameters_frame o) as Fr.
    cbv zeta in Fr. destruct Fr as (Fe & _).
    unfold writeInt32.
    cbn [reason Z.eqb P_Enable Pos.eqb negb andb]. cbv zeta.
    rewrite F1. cbn [Bool.eqb negb].
    destruct (validateParameters o) as [ok o1]. cbn [fst] in V. subst ok.
    reflexivity.
Qed.

(** [ThresholdLogicConfig] answers 0 and creates a controller exactly when
    both names are given and not empty, the address is in 0..255, no port
    of that name exists and the allocation succeeds; in every other case it
    answers -1, creates nothing and writes nothing through the
    ErrorHandler.  A controller it creates
    can be enabled at once. *)
Theorem ThresholdLogicConfig_result portName devicePort deviceAddr
    findAsynPortDriver allocated now g :
  let r := ThresholdLogicConfig portName devicePort deviceAddr
             findAsynPortDriver allocated now g in
  let accepted :=
    match portName, devicePort with
    | Some p, Some d =>
        negb (Nat.eqb (String.length p) 0)
        && negb (Nat.eqb (String.length d) 0)
        && (0 <=? deviceAddr) && (deviceAddr <=? 255)
        && negb (findAsynPortDriver p) && allocated
    | _, _ => false
    end in
  if accepted
  then fst (fst r) = 0
       /\ exists o,
            snd (fst r) = Some o
            /\ deviceAddr_ o = deviceAddr
            /\ forall spawn g',
                 fst (fst (writeInt32 (mkAsynUser P_Enable) 1 spawn o g'))
                 = asynSuccess
  else r = (-1, None, g).
Proof.
  cbv zeta. unfold ThresholdLogicConfig.
  destruct portName as [ p | ]; [ | reflexivity ].
  destruct (Nat.eqb (String.length p) 0) eqn:Ep; cbn [negb andb].
  { destruct devicePort; reflexivity. }
  destruct devicePort as [ d | ]; [ | reflexivity ].
  destruct (Nat.eqb (String.length d) 0) eqn:Ed; cbn [negb andb];
    [ reflexivity | ].
  destruct (deviceAddr <? 0) eqn:E1.
  { assert (E : (0 <=? deviceAddr) = false) by lia. rewrite E. reflexivity. }
  assert (E3 : (0 <=? deviceAddr) = true) by lia. rewrite E3.
  cbn [orb andb].
  destruct (deviceAddr >? 255) eqn:E2.
  { assert (E : (deviceAddr <=? 255) = false) by lia. rewrite E.
    reflexivity. }
  assert (E4 : (deviceAddr <=? 255) = true) by lia. rewrite E4.
  cbn [andb].
  destruct (findAsynPortDriver p); cbn [negb andb]; [ reflexivity | ].
  destruct allocated; cbn [negb]; [ | reflexivity ].
  unfold ErrorHandler.bind.
  pose proof (constructor_fields p d deviceAddr now g) as F.
  cbv zeta in F.
  destruct F as (F1 & F2 & F3 & F4 & F5 & F6 & F7 & F8 & F9 & F10).
  pose proof (constructed_validateParameters p d deviceAddr now g) as V.
  rewrite Ed, E3, E4 in V. cbn [negb andb] in V.
  destruct (ThresholdLogicController p d deviceAddr now g) as [o g1].
  cbn [fst snd ErrorHandler.ret] in *.
  split; [ reflexivity | ].
  exists o. split; [ reflexivity | split; [ exact F10 | ] ].
  intros spawn g'.
  assert (H1 : 1 <> 0) by discriminate.
  rewrite (writeInt32_Enable_passed 1 spawn o g' F1 H1 V). reflexivity.
Qed.

Lemma substring_nonempty m s :
  Nat.eqb (String.length s) 0 = false ->
  refusedLength (String.substring 0 (S m) s)
  = Nat.leb 64 (String.length (String.substring 0 (S m) s)).
Proof.
  intros H. unfold refusedLength.
  destruct s as [ | ch s ]; [ discriminate | reflexivity ].
Qed.

(** Creating a controller with names that are not empty and an address in
    0..255 always writes the same three lines: the warning that the
    hysteresis is above the threshold (the defaults are 0.1 V and 0.0 V),
    its suggestion, and the creation message. *)
Theorem constructor_logs portName devicePort deviceAddr now g :
  Nat.eqb (String.length portName) 0 = false ->
  Nat.eqb (String.length devicePort) 0 = false ->
  0 <= deviceAddr <= 255 ->
  ErrorHandler.console
    (snd (ThresholdLogicController portName devicePort deviceAddr now g))
  = ErrorHandler.mkLogLine ErrorHandler.INFO "ThresholdLogicController"
      (ErrorHandler.ControllerCreated portName devicePort deviceAddr)
    :: ErrorHandler.mkLogLine ErrorHandler.INFO
         "validateConfigurationWithErrorHandler"
         (ErrorHandler.Text
            "히스테리시스를 임계값 절댓값보다 작게 설정하세요")
    :: ErrorHandler.mkLogLine ErrorHandler.WARNING
         "validateConfigurationWithErrorHandler"
         (ErrorHandler.Text "히스테리시스가 임계값보다 큽니다")
    :: ErrorHandler.console g.
Proof.
  intros Hp Hd Ha.
  assert (N : Nat.eqb (String.length (String.substring 0 63 devicePort)) 0
              = false)
    by (destruct devicePort; [ discriminate | reflexivity ]).
  assert (E : ((deviceAddr <? 0) || (deviceAddr >? 255))%bool = false)
    by (apply Bool.orb_false_iff; split; lia).
  unfold ThresholdLogicController, validateConfigurationWithErrorHandler.
  cbv zeta.
  unfold ErrorHandler.bind at 1. unfold ErrorHandler.bind at 1.
  rewrite ErrorHandlerMore.validateConfiguration_in_range.
  - reflexivity.
  - cbn. change (refusedLength (String.substring 0 63 portName) = false).
    rewrite substring_nonempty by exact Hp.
    apply Nat.leb_gt. pose proof (substring_length_le 63 portName). lia.
  - cbn.
    change (refusedLength
              (String.substring 0 63 (String.substring 0 63 devicePort))
            = false).
    rewrite substring_nonempty by exact N.
    apply Nat.leb_gt.
    pose proof (substring_length_le 63 (String.substring 0 63 devicePort)).
    lia.
  - unfold numbersInRange. cbn.
    change (deviceAddr <? 0) with (Z.ltb deviceAddr 0) in E.
    rewrite E. reflexivity.
  - reflexivity.
Qed.

Lemma constructor_logs_witness :
  Nat.eqb (String.length "TH1") 0 = false
  /\ Nat.eqb (String.length "DEV") 0 = false
  /\ 0 <= 0 <= 255
  /\ List.length
       (ErrorHandler.console (snd (ThresholdLogicController "TH1" "DEV" 0 0 g0)))
     = 3%nat.
Proof.
  assert (H : 0 <= 0 <= 255) by lia.
  split; [ reflexivity | split; [ reflexivity | split; [ exact H | ] ] ].
  rewrite (constructor_logs "TH1" "DEV" 0 0 g0 eq_refl eq_refl H).
  reflexivity.
Defined.

End ControllerMore.
